(** * PureLB allocator controller: a shallow embedding

    The development follows the Go package [allocator]:

    - [controller.go]: the [controller] struct and its event handlers
      [SetConfig], [DeleteBalancer], [MarkSynced], [Shutdown];
    - [service.go]: [SetBalancer] and [allocateIP].

    Go pointers that the code tests against [nil] are [option]s, Go maps
    are [gmap]s, and the handlers, which mutate the controller and the
    service they are handed, are computations in a small state monad
    whose state is the pair of those two objects.  A nil dereference is a
    panic of the monad.

    The Go library, the gateway client and the allocator are interfaces
    ([NetLib], [Gateway], [AllocatorAPI]); the handlers and the theorems
    about them are generic in all three.  The allocator itself, whose
    file is not at hand, is then modelled from the specification
    ([Allocator]) and, with an IPv4 library, runs the tests of the
    package. *)

From Stdlib Require Import String Ascii ZArith NArith List Bool Lia DecimalString.
From stdpp Require Import base option gmap strings list.
Import ListNotations.
Local Open Scope string_scope.
Local Open Scope list_scope.

(** ** Values shared by every package *)

(** A Go [error] is carried by its message. *)
Definition error : Type := string.

(** A Go multiple return [(value, err)]. *)
Inductive result (A : Type) : Type :=
| Ok (a : A)
| Err (e : error).
Arguments Ok {A} a.
Arguments Err {A} e.

(** Reading a Go [map[string]string] that may be nil: a missing key and a
    nil map both read as the empty string. *)
Definition map_index (m : option (gmap string string)) (k : string) : string :=
  match m with
  | Some m' => default "" (m' !! k)
  | None => ""
  end.

(** ** Package [k8s]: the outcome of an event handler *)
Module k8s.
Inductive SyncState : Set :=
| SyncStateSuccess
| SyncStateError
| SyncStateReprocessAll.
End k8s.

(** ** Package [v1]: the part of the Kubernetes service object that the
    controller reads and writes *)
Module v1.
Record LoadBalancerIngress : Set := mkLoadBalancerIngress {
  IP : string;
  Hostname : string
}.

Record LoadBalancerStatus : Set := mkLoadBalancerStatus {
  Ingress : list LoadBalancerIngress
}.

Record ServiceStatus : Set := mkServiceStatus {
  LoadBalancer : LoadBalancerStatus
}.

Record ServicePort : Set := mkServicePort {
  Protocol : string;
  Port : Z
}.

Record ServiceSpec : Set := mkServiceSpec {
  Type_ : string;
  ClusterIP : string;
  LoadBalancerIP : string;
  Ports : list ServicePort
}.

Record Service : Type := mkService {
  Name : string;
  Annotations : option (gmap string string);
  Spec : ServiceSpec;
  Status : ServiceStatus
}.

(** The handlers never look at the endpoints. *)
Inductive Endpoints : Set := mkEndpoints.

(** [svc.Status.LoadBalancer.Ingress = ing] *)
Definition set_Ingress (ing : list LoadBalancerIngress) (svc : Service) : Service :=
  mkService (Name svc) (Annotations svc) (Spec svc)
            (mkServiceStatus (mkLoadBalancerStatus ing)).

(** [if svc.Annotations == nil { svc.Annotations = map[string]string{} }] *)
Definition init_Annotations (svc : Service) : Service :=
  match Annotations svc with
  | Some _ => svc
  | None => mkService (Name svc) (Some ∅) (Spec svc) (Status svc)
  end.

(** [svc.Annotations[k] = v]; writing to a nil map panics in Go, and the
    monadic wrapper below checks for it. *)
Definition set_Annotation (k v : string) (svc : Service) : option Service :=
  match Annotations svc with
  | Some m => Some (mkService (Name svc) (Some (<[k := v]> m)) (Spec svc) (Status svc))
  | None => None
  end.
End v1.

(** ** Package [purelbv1]: the configuration custom resource *)
Module purelbv1.
(** Modelled from the spec: [Pool] is the range text, as in the tests of
    the package.  [ExplicitOnly] stands for the pool-level flag of the
    specification ("pools can be configured as explicit request only");
    its zero value leaves the pool eligible, as the tests need. *)
Record ServiceGroupLocalSpec : Set := mkLocal {
  Pool : string;
  ExplicitOnly : bool
}.

Record ServiceGroupEGWSpec : Set := mkEGW {
  URL : string
}.

Record ServiceGroupSpec : Set := mkSpec {
  Local : option ServiceGroupLocalSpec;
  EGW : option ServiceGroupEGWSpec
}.

Record ServiceGroup : Set := mkServiceGroup {
  Name : string;
  Spec : ServiceGroupSpec
}.

Record Config : Set := mkConfig {
  Groups : list ServiceGroup
}.
End purelbv1.

(** ** Package [url] of the Go library *)
Module url.
Record URL : Set := mkURL {
  Scheme : string;
  Host : string;
  Path : string
}.

(** [u.Path = p] *)
Definition set_Path (p : string) (u : URL) : URL :=
  mkURL (Scheme u) (Host u) p.
End url.

(** ** Package [acnodal]: what the gateway answers *)
Module acnodal.
Record Group : Type := mkGroup {
  GroupLinks : option (gmap string string)
}.

Record Service : Type := mkService {
  Links : option (gmap string string)
}.
End acnodal.

(** ** What the controller takes from outside the package

    The Go library functions, the gateway client and the address
    allocator are not part of the two files embedded here.  Each is an
    interface; the handlers are written against the interfaces, and every
    theorem about a handler holds for all their implementations. *)

(** [net.ParseIP] (nil is [None]), [net.IP.String], [url.Parse] and
    [url.URL.String]. *)
Class NetLib (IP : Type) : Type := {
  ParseIP : string -> option IP;
  IP_String : IP -> string;
  url_Parse : string -> result url.URL;
  URL_String : url.URL -> string
}.

(** Two facts of the Go library about addresses: the empty text is not an
    address, and the text of an address parses. *)
Class NetLibLaws (IP : Type) `{!NetLib IP} : Prop := {
  ParseIP_empty : ParseIP "" = None;
  ParseIP_String : forall ip : IP, is_Some (ParseIP (IP_String ip))
}.

(** The gateway client: [acnodal.New], [GetGroup], [AnnounceService].  A
    handler performs each call at most once, so one answer per call is as
    general as a network that changes over time. *)
Class Gateway (EGW : Type) : Type := {
  acnodal_New : string -> string -> result EGW;
  GetGroup : EGW -> string -> result acnodal.Group;
  AnnounceService : EGW -> string -> string -> string -> result acnodal.Service
}.

(** A (protocol, port) pair of a service. *)
Record Port : Set := mkPort {
  Proto : string;
  PortNum : Z
}.

(** The methods of [*Allocator] that the controller calls, each returning
    its Go results and the allocator as the call leaves it. *)
Class AllocatorAPI (IP Alloc : Type) : Type := {
  SetPools : Alloc -> list purelbv1.ServiceGroup -> option error * Alloc;
  Assign : Alloc -> string -> IP -> list Port -> string -> result string * Alloc;
  AllocateFromPool : Alloc -> string -> string -> list Port -> string -> result IP * Alloc;
  Allocate : Alloc -> string -> list Port -> string -> result (string * IP) * Alloc;
  Unassign : Alloc -> string -> bool * Alloc
}.

(** ** Package [allocator]: constants of [service.go], lines 28 to 37 *)

Definition brand : string := "PureLB".
Definition brandAnnotation : string := "purelb.io/allocated-by".
Definition poolAnnotation : string := "purelb.io/allocated-from".
Definition sharingAnnotation : string := "purelb.io/allow-shared-ip".
Definition desiredPoolAnnotation : string := "purelb.io/address-pool".
Definition groupAnnotation : string := "acnodal.io/groupURL".
Definition serviceAnnotation : string := "acnodal.io/serviceURL".
Definition endpointAnnotation : string := "acnodal.io/endpointcreateURL".

(** Modelled from the spec: [Ports] and [SharingKey] are helpers of the
    package whose file is not among the sources.  "Port set and sharing
    key are derived from the service's declared ports and an explicit
    opt-in sharing annotation, respectively." *)
Definition Ports (svc : v1.Service) : list Port :=
  map (fun p => mkPort (v1.Protocol p) (v1.Port p)) (v1.Ports (v1.Spec svc)).

(** Modelled from the spec: the sharing key is read from "an explicit
    opt-in sharing annotation", [sharingAnnotation]. *)
Definition SharingKey (svc : v1.Service) : string :=
  map_index (v1.Annotations svc) sharingAnnotation.

Section Controller.
Context {IP Alloc : Type}.

(** *** Logging and events *)

(** An argument of a variadic logging call. *)
Inductive Arg : Type :=
| AStr (s : string)
| AErr (e : error)
| AIP (ip : IP)
| AStrPtr (p : option string).

Inductive EventKind : Set := Normal | Warning.

(** What [k8s.ServiceEvent] is asked to publish: [Infof] publishes a
    [Normal] event and [Errorf] a [Warning]. *)
Record Event : Type := mkEvent {
  ev_kind : EventKind;
  ev_type : string;
  ev_format : string;
  ev_args : list Arg
}.

(** *** The controller struct (controller.go, lines 40 to 47)

    [client] holds the events published so far ([None] is the nil
    interface that [NewController] leaves); [logger] holds the lines
    logged so far. *)
Record controller : Type := mkController {
  client : option (list Event);
  synced : bool;
  ips : Alloc;
  baseURL : option url.URL;
  groupURL : option string;
  logger : list (list Arg)
}.

Definition set_client (k : option (list Event)) (c : controller) : controller :=
  mkController k (synced c) (ips c) (baseURL c) (groupURL c) (logger c).
Definition set_synced (b : bool) (c : controller) : controller :=
  mkController (client c) b (ips c) (baseURL c) (groupURL c) (logger c).
Definition set_ips (a : Alloc) (c : controller) : controller :=
  mkController (client c) (synced c) a (baseURL c) (groupURL c) (logger c).
Definition set_baseURL (u : option url.URL) (c : controller) : controller :=
  mkController (client c) (synced c) (ips c) u (groupURL c) (logger c).
Definition set_groupURL (g : option string) (c : controller) : controller :=
  mkController (client c) (synced c) (ips c) (baseURL c) g (logger c).
Definition set_logger (l : list (list Arg)) (c : controller) : controller :=
  mkController (client c) (synced c) (ips c) (baseURL c) (groupURL c) l.

(** A call into [c.ips], with its arguments. *)
Inductive AllocCall : Type :=
| CallSetPools (groups : list purelbv1.ServiceGroup)
| CallAssign (key : string) (ip : IP) (ports : list Port) (sharingKey : string)
| CallAllocateFromPool (key pool : string) (ports : list Port) (sharingKey : string)
| CallAllocate (key : string) (ports : list Port) (sharingKey : string)
| CallUnassign (key : string).

(** *** The state the handlers run in

    [w_c] is the controller behind the receiver [c], [w_svc] the
    service behind the argument [svc].  [w_calls] is bookkeeping of the
    embedding only: the calls made into [c.ips], oldest first. *)
Record World : Type := mkWorld {
  w_c : controller;
  w_svc : v1.Service;
  w_calls : list AllocCall
}.

(** A computation returns a value and the state it leaves, or panics. *)
Definition M (A : Type) : Type := World -> option (A * World).

Definition ret {A : Type} (a : A) : M A := fun w => Some (a, w).

Definition bind {A B : Type} (m : M A) (k : A -> M B) : M B :=
  fun w =>
    match m w with
    | Some (a, w') => k a w'
    | None => None
    end.

Definition panic {A : Type} : M A := fun _ => None.

Definition get_c : M controller := fun w => Some (w_c w, w).
Definition get_svc : M v1.Service := fun w => Some (w_svc w, w).

Definition modify_c (f : controller -> controller) : M unit :=
  fun w => Some (tt, mkWorld (f (w_c w)) (w_svc w) (w_calls w)).
Definition modify_svc (f : v1.Service -> v1.Service) : M unit :=
  fun w => Some (tt, mkWorld (w_c w) (f (w_svc w)) (w_calls w)).
Definition record_call (call : AllocCall) : M unit :=
  fun w => Some (tt, mkWorld (w_c w) (w_svc w) (w_calls w ++ [call])).

(** Dereferencing a Go pointer. *)
Definition deref {A : Type} (p : option A) : M A :=
  match p with
  | Some a => ret a
  | None => panic
  end.

(** [keeps m R]: whenever [m] returns, the state it leaves is related
    by [R] to the state it started in. *)
Definition keeps {A : Type} (m : M A) (R : relation World) : Prop :=
  forall w a w', m w = Some (a, w') -> R w w'.

(** The [synced] flag is as it was. *)
Definition same_synced : relation World :=
  fun w w' => synced (w_c w') = synced (w_c w).

(** The gateway settings are as they were. *)
Definition same_gateway : relation World :=
  fun w w' => baseURL (w_c w') = baseURL (w_c w)
              /\ groupURL (w_c w') = groupURL (w_c w).

(** A controller that has a base URL has a group URL, so that line 92 of
    [service.go] does not dereference nil. *)
Definition wired (w : World) : Prop :=
  is_Some (baseURL (w_c w)) -> is_Some (groupURL (w_c w)).

(** The status of the service and the [synced] flag are as they were. *)
Definition same_status : relation World :=
  fun w w' => v1.Status (w_svc w') = v1.Status (w_svc w)
              /\ synced (w_c w') = synced (w_c w).
End Controller.

Declare Scope go_scope.
Delimit Scope go_scope with go.
Notation "x <- m ;; k" := (bind m (fun x => k))
  (at level 100, m at next level, k at level 200, right associativity) : go_scope.
Notation "m ;; k" := (bind m (fun _ => k))
  (at level 100, k at level 200, right associativity) : go_scope.
Local Open Scope go_scope.

Section Handlers.
Context {IP Alloc EGW : Type}.
Context `{!NetLib IP, !AllocatorAPI IP Alloc, !Gateway EGW}.

#[local] Abbreviation controller := (@controller IP Alloc).
#[local] Abbreviation World := (@World IP Alloc).
#[local] Abbreviation M := (@M IP Alloc).

(** [c.logger.Log(keyvals...)] *)
Definition logger_Log (keyvals : list (@Arg IP)) : M unit :=
  modify_c (fun c => set_logger (logger c ++ [keyvals]) c).

(** A method call on [c.client]; calling through the nil interface
    panics. *)
Definition publish (ev : @Event IP) : M unit :=
  c <- get_c ;;
  k <- deref (client c) ;;
  modify_c (set_client (Some (k ++ [ev]))).

Definition client_Infof (evtType msg : string) (args : list Arg) : M unit :=
  publish (mkEvent Normal evtType msg args).
Definition client_Errorf (evtType msg : string) (args : list Arg) : M unit :=
  publish (mkEvent Warning evtType msg args).

(** Calls into [c.ips]: the call is noted, made on the allocator that
    the controller holds, and the allocator it leaves is stored back. *)
Definition ips_call {A : Type} (call : AllocCall)
    (op : Alloc -> A * Alloc) : M A :=
  record_call call ;;
  c <- get_c ;;
  let '(r, a) := op (ips c) in
  modify_c (set_ips a) ;;
  ret r.

Definition ips_SetPools (groups : list purelbv1.ServiceGroup) : M (option error) :=
  ips_call (CallSetPools groups) (fun a => SetPools a groups).
Definition ips_Assign (key : string) (ip : IP) (ports : list Port)
    (sharingKey : string) : M (result string) :=
  ips_call (CallAssign key ip ports sharingKey)
           (fun a => Assign a key ip ports sharingKey).
Definition ips_AllocateFromPool (key pool : string) (ports : list Port)
    (sharingKey : string) : M (result IP) :=
  ips_call (CallAllocateFromPool key pool ports sharingKey)
           (fun a => AllocateFromPool a key pool ports sharingKey).
Definition ips_Allocate (key : string) (ports : list Port)
    (sharingKey : string) : M (result (string * IP)) :=
  ips_call (CallAllocate key ports sharingKey)
           (fun a => Allocate a key ports sharingKey).
Definition ips_Unassign (key : string) : M bool :=
  ips_call (CallUnassign key) (fun a => Unassign a key).

(** [svc.Annotations[k] = v] *)
Definition svc_set_Annotation (k v : string) : M unit :=
  svc <- get_svc ;;
  svc' <- deref (v1.set_Annotation k v svc) ;;
  modify_svc (fun _ => svc').

(** *** controller.go *)

(** [NewController(l, ips)], lines 51 to 58; the error it returns is
    always nil. *)
Definition NewController (l : list (list Arg)) (a : Alloc) : controller :=
  mkController None false a None None l.

(** [SetClient(client)], lines 60 to 62; the client comes with the events
    it has published so far. *)
Definition SetClient (k : list (@Event IP)) : M unit :=
  modify_c (set_client (Some k)).

(** [DeleteBalancer], lines 64 to 69. *)
Definition DeleteBalancer (name : string) : M k8s.SyncState :=
  removed <- ips_Unassign name ;;
  (if removed : bool
   then logger_Log [AStr "event"; AStr "serviceDeleted"; AStr "msg"; AStr "service deleted"]
   else ret tt) ;;
  ret k8s.SyncStateReprocessAll.

(** The loop of [SetConfig] over [cfg.Groups], lines 88 to 102; a
    [return] inside the loop ends it with [Some] of the returned state.
    [c.groupURL] points at the URL of the group, and [url.Parse] reads it
    back through the pointer. *)
Fixpoint SetConfig_groups (groups : list purelbv1.ServiceGroup)
    : M (option k8s.SyncState) :=
  match groups with
  | [] => ret None
  | group :: rest =>
      match purelbv1.EGW (purelbv1.Spec group) with
      | Some egw =>
          modify_c (set_groupURL (Some (purelbv1.URL egw))) ;;
          c <- get_c ;;
          g <- deref (groupURL c) ;;
          match url_Parse g with
          | Err err =>
              logger_Log [AStr "op"; AStr "setConfig"; AStr "error"; AErr err] ;;
              ret (Some k8s.SyncStateError)
          | Ok u =>
              modify_c (set_baseURL (Some (url.set_Path "" u))) ;;
              SetConfig_groups rest
          end
      | None => SetConfig_groups rest
      end
  end.

(** [SetConfig], lines 74 to 104: all but the deferred call. *)
Definition SetConfig_body (cfg : option purelbv1.Config) : M k8s.SyncState :=
  match cfg with
  | None =>
      logger_Log [AStr "op"; AStr "setConfig";
                  AStr "error"; AStr "no PureLB configuration in cluster";
                  AStr "msg"; AStr "configuration is missing, PureLB will not function"] ;;
      ret k8s.SyncStateError
  | Some cfg =>
      r <- ips_SetPools (purelbv1.Groups cfg) ;;
      match r with
      | Some err =>
          logger_Log [AStr "op"; AStr "setConfig"; AStr "error"; AErr err] ;;
          ret k8s.SyncStateError
      | None =>
          modify_c (set_groupURL None) ;;
          modify_c (set_baseURL None) ;;
          early <- SetConfig_groups (purelbv1.Groups cfg) ;;
          match early with
          | Some st => ret st
          | None => ret k8s.SyncStateReprocessAll
          end
      end
  end.

(** [SetConfig], lines 71 to 105.  The deferred log line of line 72 runs
    on every return. *)
Definition SetConfig (cfg : option purelbv1.Config) : M k8s.SyncState :=
  st <- SetConfig_body cfg ;;
  logger_Log [AStr "event"; AStr "configUpdated"] ;;
  ret st.

(** [MarkSynced], lines 107 to 110. *)
Definition MarkSynced : M unit :=
  modify_c (set_synced true) ;;
  logger_Log [AStr "event"; AStr "stateSynced";
              AStr "msg"; AStr "controller synced, can allocate IPs now"].

(** [Shutdown], lines 112 to 114. *)
Definition Shutdown : M unit :=
  logger_Log [AStr "event"; AStr "shutdown"].

(** *** service.go *)

(** [fmt.Errorf("invalid spec.loadBalancerIP %q", s)], with the quoting
    of [%q] left to the reader of the message. *)
Definition invalid_loadBalancerIP (s : string) : error :=
  ("invalid spec.loadBalancerIP " ++ s)%string.

(** [allocateIP], lines 114 to 140. *)
Definition allocateIP (key : string) : M (result (string * IP)) :=
  svc <- get_svc ;;
  if negb (String.eqb (v1.LoadBalancerIP (v1.Spec svc)) "") then
    match ParseIP (v1.LoadBalancerIP (v1.Spec svc)) with
    | None => ret (Err (invalid_loadBalancerIP (v1.LoadBalancerIP (v1.Spec svc))))
    | Some ip =>
        r <- ips_Assign key ip (Ports svc) (SharingKey svc) ;;
        match r with
        | Err err => ret (Err err)
        | Ok pool => ret (Ok (pool, ip))
        end
    end
  else
    let desiredPool := map_index (v1.Annotations svc) desiredPoolAnnotation in
    if negb (String.eqb desiredPool "") then
      r <- ips_AllocateFromPool key desiredPool (Ports svc) (SharingKey svc) ;;
      match r with
      | Err err => ret (Err err)
      | Ok ip => ret (Ok (desiredPool, ip))
      end
    else
      ips_Allocate key (Ports svc) (SharingKey svc).

(** The test of lines 55 and 56:
    [len(Ingress) == 1 && ParseIP(Ingress[0].IP) != nil]. *)
Definition has_address (svc : v1.Service) : bool :=
  match v1.Ingress (v1.LoadBalancer (v1.Status svc)) with
  | [ing] => bool_decide (is_Some (ParseIP (v1.IP ing)))
  | _ => false
  end.

(** The block of [SetBalancer] guarded by [c.baseURL != nil], lines 83
    to 108.  [Ingress[0]] is an index into a slice, which panics when the
    slice is empty. *)
Definition announce (base : url.URL) : M k8s.SyncState :=
  match acnodal_New (URL_String base) "" with
  | Err err =>
      svc <- get_svc ;;
      logger_Log [AStr "op"; AStr "allocateIP"; AStr "error"; AErr err;
                  AStr "msg"; AStr "IP allocation failed"] ;;
      client_Errorf "AllocationFailed" "Failed to create EGW service for %s: %s"
                    [AStr (v1.Name svc); AErr err] ;;
      ret k8s.SyncStateError
  | Ok egw =>
      c <- get_c ;;
      g <- deref (groupURL c) ;;
      match GetGroup egw g with
      | Err err =>
          logger_Log [AStr "op"; AStr "GetGroup"; AStr "group"; AStrPtr (groupURL c);
                      AStr "error"; AErr err] ;;
          client_Errorf "GetGroupFailed" "Failed to get group %s: %s"
                        [AStrPtr (groupURL c); AErr err] ;;
          ret k8s.SyncStateError
      | Ok group =>
          svc <- get_svc ;;
          ing <- deref (head (v1.Ingress (v1.LoadBalancer (v1.Status svc)))) ;;
          match AnnounceService egw
                  (map_index (acnodal.GroupLinks group) "create-service")
                  (v1.Name svc) (v1.IP ing) with
          | Err err =>
              logger_Log [AStr "op"; AStr "AnnouncementFailed";
                          AStr "service"; AStr (v1.Name svc); AStr "error"; AErr err] ;;
              client_Errorf "AnnouncementFailed" "Failed to announce service for %s: %s"
                            [AStr (v1.Name svc); AErr err] ;;
              ret k8s.SyncStateError
          | Ok egwsvc =>
              svc_set_Annotation groupAnnotation
                                 (map_index (acnodal.Links egwsvc) "group") ;;
              svc_set_Annotation serviceAnnotation
                                 (map_index (acnodal.Links egwsvc) "self") ;;
              svc_set_Annotation endpointAnnotation
                                 (map_index (acnodal.Links egwsvc) "create-endpoint") ;;
              ret k8s.SyncStateSuccess
          end
      end
  end.

(** [SetBalancer], lines 39 to 112. *)
Definition SetBalancer (name : string) (_ : option v1.Endpoints) : M k8s.SyncState :=
  c <- get_c ;;
  if negb (synced c) then
    logger_Log [AStr "op"; AStr "allocateIP"; AStr "error"; AStr "controller not synced"] ;;
    ret k8s.SyncStateError
  else
    svc <- get_svc ;;
    match ParseIP (v1.ClusterIP (v1.Spec svc)) with
    | None =>
        logger_Log [AStr "event"; AStr "clearAssignment"; AStr "reason"; AStr "noClusterIP"] ;;
        ret k8s.SyncStateSuccess
    | Some clusterIP =>
        if has_address svc then
          logger_Log [AStr "event"; AStr "ipAlreadySet"] ;;
          ret k8s.SyncStateSuccess
        else
          r <- allocateIP name ;;
          match r with
          | Err err =>
              logger_Log [AStr "op"; AStr "allocateIP"; AStr "error"; AErr err;
                          AStr "msg"; AStr "IP allocation failed"] ;;
              client_Errorf "AllocationFailed" "Failed to allocate IP for %q: %s"
                            [AStr name; AErr err] ;;
              ret k8s.SyncStateSuccess
          | Ok (pool, lbIP) =>
              logger_Log [AStr "event"; AStr "ipAllocated"; AStr "ip"; AIP lbIP;
                          AStr "pool"; AStr pool; AStr "service"; AStr name] ;;
              client_Infof "IPAllocated" "Assigned IP %q" [AIP lbIP] ;;
              modify_svc (v1.set_Ingress [v1.mkLoadBalancerIngress (IP_String lbIP) ""]) ;;
              modify_svc v1.init_Annotations ;;
              svc_set_Annotation brandAnnotation brand ;;
              svc_set_Annotation poolAnnotation pool ;;
              c <- get_c ;;
              match baseURL c with
              | Some base => announce base
              | None => ret k8s.SyncStateSuccess
              end
          end
    end.
(** *** Vocabulary for the statements below *)

(** The controller after one more log line, after one more published
    event, and the state after one more call into the allocator. *)
Definition logged (line : list (@Arg IP)) (c : controller) : controller :=
  set_logger (logger c ++ [line]) c.

Definition published (k : list (@Event IP)) (ev : @Event IP) (c : controller)
    : controller :=
  set_client (Some (k ++ [ev])) c.

Definition after_call (w : World) (a : Alloc) (call : @AllocCall IP) : World :=
  mkWorld (set_ips a (w_c w)) (w_svc w) (w_calls w ++ [call]).

(** The gateway's answer to the three calls of [announce], taken
    together: the first error, or the announced service. *)
Definition announcement (base : url.URL) (group name addr : string)
    : result acnodal.Service :=
  match acnodal_New (URL_String base) "" with
  | Err err => Err err
  | Ok egw =>
      match GetGroup egw group with
      | Err err => Err err
      | Ok g => AnnounceService egw (map_index (acnodal.GroupLinks g) "create-service")
                                name addr
      end
  end.

(** The service with address [lbIP] of pool [pool] in its status and
    its annotations, as lines 72 to 80 of [service.go] leave it. *)
Definition programmed (pool : string) (lbIP : IP) (svc : v1.Service) : v1.Service :=
  v1.mkService (v1.Name svc)
    (Some (<[poolAnnotation := pool]>
             (<[brandAnnotation := brand]> (default ∅ (v1.Annotations svc)))))
    (v1.Spec svc)
    (v1.mkServiceStatus
       (v1.mkLoadBalancerStatus [v1.mkLoadBalancerIngress (IP_String lbIP) ""])).

(** The link annotations of lines 106 to 108. *)
Definition linked (egwsvc : acnodal.Service) (svc : v1.Service) : v1.Service :=
  v1.mkService (v1.Name svc)
    (Some (<[endpointAnnotation := map_index (acnodal.Links egwsvc) "create-endpoint"]>
             (<[serviceAnnotation := map_index (acnodal.Links egwsvc) "self"]>
                (<[groupAnnotation := map_index (acnodal.Links egwsvc) "group"]>
                   (default ∅ (v1.Annotations svc))))))
    (v1.Spec svc) (v1.Status svc).

(** *** The driver

    The methods of the [Controller] interface, as the reconciliation
    driver calls them one after the other.  [SetBalancer] is handed a
    service, which takes the place of the one in the state. *)
Inductive Call : Type :=
| CallSetClient (k : list (@Event IP))
| CallSetConfig (cfg : option purelbv1.Config)
| CallSetBalancer (name : string) (svc : v1.Service) (eps : option v1.Endpoints)
| CallDeleteBalancer (name : string)
| CallMarkSynced
| CallShutdown.

Definition is_MarkSynced (call : Call) : bool :=
  match call with
  | CallMarkSynced => true
  | _ => false
  end.

Definition serve (call : Call) : M unit :=
  match call with
  | CallSetClient k => SetClient k
  | CallSetConfig cfg => SetConfig cfg ;; ret tt
  | CallSetBalancer name svc eps =>
      modify_svc (fun _ => svc) ;; SetBalancer name eps ;; ret tt
  | CallDeleteBalancer name => DeleteBalancer name ;; ret tt
  | CallMarkSynced => MarkSynced
  | CallShutdown => Shutdown
  end.

Fixpoint serve_all (history : list Call) : M unit :=
  match history with
  | [] => ret tt
  | call :: rest => serve call ;; serve_all rest
  end.
End Handlers.

(** ** The properties under study, as statements *)
Section Statements.
Context {IP Alloc EGW : Type}.
Context `{!NetLib IP, !AllocatorAPI IP Alloc, !Gateway EGW}.

(** [SetBalancer name] in state [w] gets as far as allocating (the
    controller is synced, the ClusterIP parses, the service has no
    address yet), the client is bound, and [allocateIP] hands back
    address [lbIP] of pool [pool]. *)
Definition allocates (w : @World IP Alloc) (name : string)
    (pool : string) (lbIP : IP) : Prop :=
  synced (w_c w) = true
  /\ is_Some (ParseIP (v1.ClusterIP (v1.Spec (w_svc w))))
  /\ has_address (w_svc w) = false
  /\ is_Some (client (w_c w))
  /\ exists w1, allocateIP name w = Some (Ok (pool, lbIP), w1).

(** The service shows address [lbIP] of pool [pool]: the address is the
    one ingress of its status, and the brand and pool annotations are
    set. *)
Definition shows_allocation (svc : v1.Service) (pool : string) (lbIP : IP) : Prop :=
  v1.Ingress (v1.LoadBalancer (v1.Status svc))
    = [v1.mkLoadBalancerIngress (IP_String lbIP) ""]
  /\ exists m, v1.Annotations svc = Some m
              /\ m !! brandAnnotation = Some brand
              /\ m !! poolAnnotation = Some pool.

(** C1 as the specification words it: the success outcome, with the
    address and the two annotations written, after every allocation --
    whatever the gateway does. *)
Definition success_after_every_allocation (w : @World IP Alloc) (name : string)
    (eps : option v1.Endpoints) : Prop :=
  forall pool lbIP,
    allocates w name pool lbIP ->
    exists w',
      SetBalancer name eps w = Some (k8s.SyncStateSuccess, w')
      /\ shows_allocation (w_svc w') pool lbIP.

(** C5 as the specification words it: after a failed announcement, the
    error outcome and a status that does not show the allocated
    address. *)
Definition address_withheld_after_failed_announcement (w : @World IP Alloc)
    (name : string) (eps : option v1.Endpoints) : Prop :=
  forall pool lbIP base g err,
    allocates w name pool lbIP ->
    baseURL (w_c w) = Some base ->
    groupURL (w_c w) = Some g ->
    announcement base g (v1.Name (w_svc w)) (IP_String lbIP) = Err err ->
    exists w',
      SetBalancer name eps w = Some (k8s.SyncStateError, w')
      /\ forall ing,
           ing ∈ v1.Ingress (v1.LoadBalancer (v1.Status (w_svc w'))) ->
           v1.IP ing <> IP_String lbIP.
End Statements.

(** ** The address allocator

    [allocator.go] is not among the sources; the allocator below follows
    the specification, sections 3 and 4.  Addresses are IPv4 addresses,
    held as numbers. *)

#[global] Instance Port_eq_dec : EqDecision Port.
Proof. solve_decision. Defined.

(** Text helpers for dotted-quad addresses and range texts. *)
Module IPv4.
Fixpoint split_on (sep : ascii) (s : string) : list string :=
  match s with
  | EmptyString => [EmptyString]
  | String ch rest =>
      if Ascii.eqb ch sep then EmptyString :: split_on sep rest
      else match split_on sep rest with
           | h :: t => String ch h :: t
           | [] => [String ch EmptyString]
           end
  end.

Definition digit (ch : ascii) : option N :=
  let n := N_of_ascii ch in
  if (48 <=? n)%N && (n <=? 57)%N then Some (n - 48)%N else None.

Fixpoint decimal_from (acc : N) (s : string) : option N :=
  match s with
  | EmptyString => Some acc
  | String ch rest =>
      match digit ch with
      | Some d => decimal_from (acc * 10 + d)%N rest
      | None => None
      end
  end.

Definition decimal (s : string) : option N :=
  match s with
  | EmptyString => None
  | _ => decimal_from 0%N s
  end.

Definition octet (s : string) : option N :=
  match decimal s with
  | Some n => if (n <=? 255)%N then Some n else None
  | None => None
  end.

(** [a.b.c.d] *)
Definition parse (s : string) : option N :=
  match split_on "." s with
  | [a; b; c; d] =>
      match octet a, octet b, octet c, octet d with
      | Some a, Some b, Some c, Some d => Some (((a * 256 + b) * 256 + c) * 256 + d)%N
      | _, _, _, _ => None
      end
  | _ => None
  end.

Definition show (n : N) : string := NilEmpty.string_of_uint (N.to_uint n).

(** A text without a dot. *)
Fixpoint dotless (s : string) : bool :=
  match s with
  | EmptyString => true
  | String ch rest => negb (Ascii.eqb ch ".") && dotless rest
  end.

(** The text of an octet has no dot and reads back as the octet. *)
Definition octet_round_trip (n : N) : bool :=
  dotless (show n) && bool_decide (octet (show n) = Some n).

Definition to_string (ip : N) : string :=
  (show (ip / 16777216 mod 256) ++ "." ++ show (ip / 65536 mod 256) ++ "."
   ++ show (ip / 256 mod 256) ++ "." ++ show (ip mod 256))%string.

(** *** URLs

    [parse_url] and [url_to_string] follow [url.Parse] and
    [url.URL.String] of the Go library on the texts that a [url.URL] of
    scheme, host and path can hold: texts made of letters, digits and
    [- _ . ~ / : +], with [[ ]] in the host.  A text with another
    character (user info, query, fragment, escapes, blanks) or with an
    opaque part ([mailto:x]) is outside these texts and is refused; no
    scenario below uses one. *)

Definition in_range (lo hi : N) (ch : ascii) : bool :=
  (lo <=? N_of_ascii ch)%N && (N_of_ascii ch <=? hi)%N.

Definition is_letter (ch : ascii) : bool :=
  in_range 97 122 ch || in_range 65 90 ch.

Definition is_digit (ch : ascii) : bool := in_range 48 57 ch.

Definition one_of (chars : string) (ch : ascii) : bool :=
  existsb (Ascii.eqb ch) (list_ascii_of_string chars).

Definition all_chars (ok : ascii -> bool) (s : string) : bool :=
  forallb ok (list_ascii_of_string s).

(** The characters of the texts covered. *)
Definition covered (ch : ascii) : bool :=
  is_letter ch || is_digit ch || one_of "-_.~/:+[]" ch.

(** [strings.ToLower], on ASCII. *)
Definition lower (ch : ascii) : ascii :=
  if in_range 65 90 ch then ascii_of_N (N_of_ascii ch + 32) else ch.

Fixpoint to_lower (s : string) : string :=
  match s with
  | EmptyString => EmptyString
  | String ch rest => String (lower ch) (to_lower rest)
  end.

(** What [getScheme] finds: no scheme, a scheme that ends before index
    [i], or a text that starts with a colon. *)
Inductive SchemeScan : Set :=
| NoScheme
| SchemeBefore (i : nat)
| MissingScheme.

(** The loop of [getScheme], at index [i] of the text. *)
Fixpoint scan_scheme (i : nat) (s : string) : SchemeScan :=
  match s with
  | EmptyString => NoScheme
  | String ch rest =>
      if is_letter ch then scan_scheme (S i) rest
      else if is_digit ch || one_of "+-." ch then
        match i with
        | O => NoScheme
        | S _ => scan_scheme (S i) rest
        end
      else if Ascii.eqb ch ":" then
        match i with
        | O => MissingScheme
        | S _ => SchemeBefore i
        end
      else NoScheme
  end.

(** The text from index [i] on. *)
Definition from (i : nat) (s : string) : string :=
  String.substring i (String.length s - i) s.

(** [strings.LastIndex] for a one-character pattern. *)
Fixpoint last_index_from (i : nat) (ch : ascii) (s : string) : option nat :=
  match s with
  | EmptyString => None
  | String c rest =>
      match last_index_from (S i) ch rest with
      | Some j => Some j
      | None => if Ascii.eqb c ch then Some i else None
      end
  end.

(** [validOptionalPort]: nothing, or a colon and digits. *)
Definition valid_optional_port (port : string) : bool :=
  match port with
  | EmptyString => true
  | String ch digits => Ascii.eqb ch ":" && all_chars is_digit digits
  end.

(** [parseHost], which checks the brackets of an IP literal and the
    port. *)
Definition parse_host (host : string) : result string :=
  if String.prefix "[" host then
    match last_index_from 0 "]" host with
    | None => Err "missing ']' in host"
    | Some i =>
        if valid_optional_port (from (S i) host) then Ok host
        else Err "invalid port after host"
    end
  else
    match last_index_from 0 ":" host with
    | Some i =>
        if valid_optional_port (from i host) then Ok host
        else Err "invalid port after host"
    | None => Ok host
    end.

(** The first segment of a path: the text before its first slash. *)
Definition first_segment (path : string) : string :=
  match String.index 0 "/" path with
  | Some i => String.substring 0 i path
  | None => path
  end.

(** [url.Parse] after [getScheme], on the text [rest] that follows the
    scheme. *)
Definition parse_rest (scheme rest : string) : result url.URL :=
  if negb (String.prefix "/" rest) then
    if negb (String.eqb scheme "") then Err "opaque URL: not covered"
    else if negb (all_chars (fun ch => negb (Ascii.eqb ch ":")) (first_segment rest))
    then Err "first path segment in URL cannot contain colon"
    else if all_chars (fun ch => negb (one_of "[]" ch)) rest
    then Ok (url.mkURL "" "" rest)
    else Err "bracket in path: not covered"
  else if (negb (String.eqb scheme "") || negb (String.prefix "///" rest))
          && String.prefix "//" rest then
    let authority := first_segment (from 2 rest) in
    let path := from (2 + String.length authority) rest in
    if negb (all_chars (fun ch => negb (one_of "[]" ch)) path)
    then Err "bracket in path: not covered"
    else
      match parse_host authority with
      | Ok host => Ok (url.mkURL scheme host path)
      | Err err => Err err
      end
  else if all_chars (fun ch => negb (one_of "[]" ch)) rest
  then Ok (url.mkURL scheme "" rest)
  else Err "bracket in path: not covered".

(** [url.Parse]; an error is the cause that Go wraps in a [url.Error]. *)
Definition parse_url (s : string) : result url.URL :=
  if negb (all_chars covered s) then Err "character not covered"
  else
    match scan_scheme 0 s with
    | MissingScheme => Err "missing protocol scheme"
    | NoScheme => parse_rest "" s
    | SchemeBefore i => parse_rest (to_lower (String.substring 0 i s)) (from (S i) s)
    end.

(** [url.URL.String], as in the Go releases without [OmitHost]; the
    texts covered need no escaping. *)
Definition url_to_string (u : url.URL) : string :=
  let scheme := if String.eqb (url.Scheme u) "" then "" else (url.Scheme u ++ ":")%string in
  let authority :=
    if negb (String.eqb (url.Scheme u) "") || negb (String.eqb (url.Host u) "") then
      ((if negb (String.eqb (url.Host u) "") || negb (String.eqb (url.Path u) "")
        then "//" else "") ++ url.Host u)%string
    else "" in
  let slash :=
    if negb (String.eqb (url.Path u) "") && negb (String.prefix "/" (url.Path u))
       && negb (String.eqb (url.Host u) "")
    then "/" else "" in
  let dot :=
    if String.eqb (scheme ++ authority ++ slash)%string ""
       && negb (all_chars (fun ch => negb (Ascii.eqb ch ":")) (first_segment (url.Path u)))
    then "./" else "" in
  (scheme ++ authority ++ slash ++ dot ++ url.Path u)%string.
End IPv4.

(** The Go library, cut down to IPv4 addresses and to the URLs of scheme,
    host and path described above; the runs of the package's tests below
    go through it. *)
#[global] Instance ipv4_lib : NetLib N := {
  ParseIP := IPv4.parse;
  IP_String := IPv4.to_string;
  url_Parse := IPv4.parse_url;
  URL_String := IPv4.url_to_string
}.

(** A gateway that gives the same three answers whatever it is asked. *)
Definition scripted_gateway (new : result unit) (group : result acnodal.Group)
    (announced : result acnodal.Service) : Gateway unit := {|
  acnodal_New _ _ := new;
  GetGroup _ _ := group;
  AnnounceService _ _ _ _ := announced
|}.

Module Allocator.
(** Modelled from the spec: the Address Range, "a contiguous set of IP
    addresses (CIDR or explicit start/end)", non-empty, with membership,
    size and ascending enumeration. *)
Record Range : Set := mkRange {
  first : N;
  last : N
}.

(** Modelled from the spec: [contains(address) -> bool]. *)
Definition contains (r : Range) (a : N) : bool :=
  (first r <=? a)%N && (a <=? last r)%N.

(** Modelled from the spec: [size() -> count]. *)
Definition size (r : Range) : N := (last r - first r + 1)%N.

(** Modelled from the spec: [iterate()], the addresses of the range in
    ascending order. *)
Definition iterate (r : Range) : list N :=
  map (fun i => (first r + N.of_nat i)%N) (seq 0 (N.to_nat (size r))).

(** Modelled from the spec: "two Pools are overlapping if their ranges
    share any address". *)
Definition overlapping (r1 r2 : Range) : bool :=
  (first r1 <=? last r2)%N && (first r2 <=? last r1)%N.

(** Modelled from the spec: construct-from-text, which "fails with
    InvalidRangeFormat on malformed CIDR/range syntax"; the texts are
    [a.b.c.d/len] and [a.b.c.d-e.f.g.h]. *)
Definition parse_range (s : string) : option Range :=
  match IPv4.split_on "/" s with
  | [a; l] =>
      match IPv4.parse a, IPv4.decimal l with
      | Some ip, Some len =>
          if (len <=? 32)%N then
            let block := (2 ^ (32 - len))%N in
            let base := (ip / block * block)%N in
            Some (mkRange base (base + block - 1)%N)
          else None
      | _, _ => None
      end
  | _ =>
      match IPv4.split_on "-" s with
      | [a; b] =>
          match IPv4.parse a, IPv4.parse b with
          | Some lo, Some hi => if (lo <=? hi)%N then Some (mkRange lo hi) else None
          | _, _ => None
          end
      | _ => None
      end
  end.

(** Modelled from the spec: the Pool, "name, one Address Range,
    optional flag marking it eligible for brute-force allocation". *)
Record Pool : Set := mkPool {
  p_name : string;
  p_range : Range;
  p_explicit_only : bool
}.

(** Modelled from the spec: the Assignment, "client key, address,
    owning pool name, requested port set, sharing key (empty means no
    sharing permitted)"; [a_orphaned] is the mark that [SetPools] puts
    on an Assignment whose address left every pool. *)
Record Assignment : Set := mkAssignment {
  a_key : string;
  a_addr : N;
  a_pool : string;
  a_ports : list Port;
  a_sharing : string;
  a_orphaned : bool
}.

(** Modelled from the spec: the Pool Set, in configured order, and the
    Allocation Table, "mapping key -> Assignment, plus a reverse mapping
    address -> set of keys currently holding an Assignment on that
    address". *)
Record t : Type := mk {
  pools : list Pool;
  assignments : gmap string Assignment;
  holders : gmap N (gset string)
}.

(** Modelled from the spec: the allocator that [New()] makes in the
    tests, with no pool and no Assignment. *)
Definition New : t := mk [] ∅ ∅.

(** Modelled from the spec: the failure kinds of section 7 that the
    allocator reports. *)
Inductive Failure : Set :=
| InvalidPoolConfig (pool : string)
| AddressNotInPool
| AssignmentMismatch
| KeyAlreadyAssigned
| SharingConflict
| PoolNotFound
| PoolExhausted
| NoAddressAvailable.

(** Modelled from the spec: a failure as a Go error, named after its
    kind. *)
Definition message (f : Failure) : error :=
  match f with
  | InvalidPoolConfig pool => ("InvalidPoolConfig " ++ pool)%string
  | AddressNotInPool => "AddressNotInPool"
  | AssignmentMismatch => "AssignmentMismatch"
  | KeyAlreadyAssigned => "KeyAlreadyAssigned"
  | SharingConflict => "SharingConflict"
  | PoolNotFound => "PoolNotFound"
  | PoolExhausted => "PoolExhausted"
  | NoAddressAvailable => "NoAddressAvailable"
  end.

(** *** Sharing Validator (specification, section 4.6) *)

(** Modelled from the spec: two port sets conflict when they share a
    port; "an empty/all-ports port set is defined to conflict with
    anything, including another all-ports set". *)
Definition ports_conflict (p q : list Port) : bool :=
  match p, q with
  | [], _ => true
  | _, [] => true
  | _, _ => existsb (fun x => existsb (fun y => bool_decide (x = y)) q) p
  end.

(** Modelled from the spec: the same, said with membership: one of the
    two is the all-ports set,
    or they have a port in common. *)
Definition conflicting (p q : list Port) : Prop :=
  p = [] \/ q = [] \/ exists x, x ∈ p /\ x ∈ q.

(** Modelled from the spec: the Sharing Validator.  "If there are no
    existing Assignments, the candidate is always admitted.  Otherwise,
    admission requires ALL of: the candidate's sharingKey is non-empty,
    every existing Assignment's sharingKey equals the candidate's
    sharingKey, the candidate's port set is pairwise disjoint from every
    existing Assignment's port set." *)
Definition admits (existing : list Assignment) (ports : list Port)
    (sharingKey : string) : bool :=
  match existing with
  | [] => true
  | _ =>
      negb (String.eqb sharingKey "")
      && forallb (fun a => String.eqb (a_sharing a) sharingKey) existing
      && forallb (fun a => negb (ports_conflict ports (a_ports a))) existing
  end.

(** *** Allocation Table *)

(** Modelled from the spec: the Assignments currently held on an
    address, orphaned ones left out ("excluded from conflict
    calculations"). *)
Definition existing_on (al : t) (addr : N) : list Assignment :=
  omap (fun key =>
          match assignments al !! key with
          | Some a => if a_orphaned a then None else Some a
          | None => None
          end)
       (elements (default ∅ (holders al !! addr))).

(** Modelled from the spec: "a new Assignment is created and both table
    mappings updated". *)
Definition add (al : t) (a : Assignment) : t :=
  mk (pools al)
     (<[a_key a := a]> (assignments al))
     (<[a_addr a := {[a_key a]} ∪ default ∅ (holders al !! a_addr a)]> (holders al)).

(** Modelled from the spec: what a request of [key] for [addr] meets
    (section 4.3): a no-op for the same request again, a new Assignment,
    or one of the failures. *)
Inductive Verdict : Set :=
| NoOp
| Create
| Refuse (f : Failure).

(** Modelled from the spec: the checks of section 4.3 on a key that
    holds an Assignment, and the Sharing Validator on one that holds
    none. *)
Definition verdict (al : t) (key : string) (addr : N) (ports : list Port)
    (sharingKey : string) : Verdict :=
  match assignments al !! key with
  | Some a =>
      if (a_addr a =? addr)%N then
        if bool_decide (a_ports a = ports) && String.eqb (a_sharing a) sharingKey
        then NoOp
        else Refuse AssignmentMismatch
      else Refuse KeyAlreadyAssigned
  | None =>
      if admits (existing_on al addr) ports sharingKey
      then Create
      else Refuse SharingConflict
  end.

(** Modelled from the spec: a "viable address" is one whose verdict is
    not a failure. *)
Definition viable (v : Verdict) : bool :=
  match v with
  | Refuse _ => false
  | _ => true
  end.

(** Modelled from the spec: the table after a viable request. *)
Definition settle (al : t) (v : Verdict) (key : string) (addr : N)
    (pool : string) (ports : list Port) (sharingKey : string) : t :=
  match v with
  | Create => add al (mkAssignment key addr pool ports sharingKey false)
  | _ => al
  end.

(** Modelled from the spec: the pool of the current Pool Set in which an
    address lies. *)
Definition pool_of (al : t) (addr : N) : option Pool :=
  List.find (fun p => contains (p_range p) addr) (pools al).

(** Modelled from the spec: explicit-address allocation, section 4.3. *)
Definition Assign (al : t) (key : string) (addr : N) (ports : list Port)
    (sharingKey : string) : result string * t :=
  match pool_of al addr with
  | None => (Err (message AddressNotInPool), al)
  | Some p =>
      match verdict al key addr ports sharingKey with
      | Refuse f => (Err (message f), al)
      | v => (Ok (p_name p), settle al v key addr (p_name p) ports sharingKey)
      end
  end.

(** Modelled from the spec: the per-pool search of section 4.4: the first
    address of the pool,
    in ascending order, that admits the request. *)
Definition search (al : t) (p : Pool) (key : string) (ports : list Port)
    (sharingKey : string) : option (N * t) :=
  match List.find (fun addr => viable (verdict al key addr ports sharingKey))
                  (iterate (p_range p)) with
  | Some addr =>
      Some (addr, settle al (verdict al key addr ports sharingKey)
                         key addr (p_name p) ports sharingKey)
  | None => None
  end.

(** Modelled from the spec: named-pool allocation, section 4.4. *)
Definition AllocateFromPool (al : t) (key pool : string) (ports : list Port)
    (sharingKey : string) : result N * t :=
  match List.find (fun p => String.eqb (p_name p) pool) (pools al) with
  | None => (Err (message PoolNotFound), al)
  | Some p =>
      match search al p key ports sharingKey with
      | Some (addr, al') => (Ok addr, al')
      | None => (Err (message PoolExhausted), al)
      end
  end.

(** Modelled from the spec: the walk of section 4.5 over the pools,
    "skipping pools flagged explicit-only" and "returning the first
    successful (pool, address) pair". *)
Fixpoint Allocate_in (ps : list Pool) (al : t) (key : string) (ports : list Port)
    (sharingKey : string) : result (string * N) * t :=
  match ps with
  | [] => (Err (message NoAddressAvailable), al)
  | p :: rest =>
      if p_explicit_only p then Allocate_in rest al key ports sharingKey
      else
        match search al p key ports sharingKey with
        | Some (addr, al') => (Ok (p_name p, addr), al')
        | None => Allocate_in rest al key ports sharingKey
        end
  end.

(** Modelled from the spec: any-pool allocation, section 4.5, over the
    pools "in the Pool Set's configured order". *)
Definition Allocate (al : t) (key : string) (ports : list Port)
    (sharingKey : string) : result (string * N) * t :=
  Allocate_in (pools al) al key ports sharingKey.

(** Modelled from the spec: release, section 4.7.  "Removes key's
    Assignment if present; if it was the sole remaining key on that
    address, the address becomes free for reuse (removed from the
    reverse mapping)"; the result tells "whether a removal actually
    occurred". *)
Definition Unassign (al : t) (key : string) : bool * t :=
  match assignments al !! key with
  | None => (false, al)
  | Some a =>
      let rest := default ∅ (holders al !! a_addr a) ∖ {[key]} in
      (true,
       mk (pools al)
          (delete key (assignments al))
          (if bool_decide (rest = ∅)
           then delete (a_addr a) (holders al)
           else <[a_addr a := rest]> (holders al)))
  end.

(** Modelled from the spec: the pool definitions "(name, range text,
    flags)" that a list of service groups carries: one per group with a
    local spec. *)
Definition definitions (groups : list purelbv1.ServiceGroup)
    : list (string * string * bool) :=
  omap (fun g =>
          match purelbv1.Local (purelbv1.Spec g) with
          | Some l => Some (purelbv1.Name g, purelbv1.Pool l, purelbv1.ExplicitOnly l)
          | None => None
          end)
       groups.

(** Modelled from the spec: validation of section 4.2, one definition at
    a time against the
    pools accepted so far: "no duplicate names, every range parses, no
    pairwise overlap". *)
Fixpoint validate (defs : list (string * string * bool)) (acc : list Pool)
    : Failure + list Pool :=
  match defs with
  | [] => inr acc
  | (name, text, explicit_only) :: rest =>
      match parse_range text with
      | None => inl (InvalidPoolConfig name)
      | Some r =>
          if existsb (fun p => String.eqb (p_name p) name || overlapping (p_range p) r) acc
          then inl (InvalidPoolConfig name)
          else validate rest (acc ++ [mkPool name r explicit_only])
      end
  end.

(** Modelled from the spec: an Assignment whose address lies in no pool
    of the new set is "marked orphaned ... until explicitly released". *)
Definition reassess (ps : list Pool) (a : Assignment) : Assignment :=
  mkAssignment (a_key a) (a_addr a) (a_pool a) (a_ports a) (a_sharing a)
    (a_orphaned a || negb (existsb (fun p => contains (p_range p) (a_addr a)) ps)).

(** Modelled from the spec: Pool Set replace, section 4.2.  A failure
    "leaves the previously active Pool Set and all existing Assignments
    untouched"; on success the Assignments whose address no longer lies
    in a pool "are marked orphaned". *)
Definition SetPools (al : t) (groups : list purelbv1.ServiceGroup)
    : option error * t :=
  match validate (definitions groups) [] with
  | inl f => (Some (message f), al)
  | inr ps => (None, mk ps (reassess ps <$> assignments al) (holders al))
  end.
End Allocator.

#[global] Instance spec_allocator : AllocatorAPI N Allocator.t := {
  SetPools := Allocator.SetPools;
  Assign := Allocator.Assign;
  AllocateFromPool := Allocator.AllocateFromPool;
  Allocate := Allocator.Allocate;
  Unassign := Allocator.Unassign
}.

(** ** The scenarios of the package's tests *)
Module Scenario.
Definition pool_config (range : string) : purelbv1.Config :=
  purelbv1.mkConfig
    [purelbv1.mkServiceGroup "default"
       (purelbv1.mkSpec (Some (purelbv1.mkLocal range false)) None)].

(** A service "that would need an IP allocation". *)
Definition svc : v1.Service :=
  v1.mkService "" None (v1.mkServiceSpec "LoadBalancer" "1.2.3.4" "" [])
               (v1.mkServiceStatus (v1.mkLoadBalancerStatus [])).

(** [&controller{logger: ..., ips: New(), client: k}] *)
Definition fresh : @controller N Allocator.t :=
  mkController (Some []) false Allocator.New None None [].

Definition start (s : v1.Service) : @World N Allocator.t :=
  mkWorld fresh s [].

(** Swap the service that the next handler is given. *)
Definition with_svc (s : v1.Service) : @M N Allocator.t unit :=
  modify_svc (fun _ => s).

Definition no_gateway : Gateway unit :=
  scripted_gateway (Err "unused") (Err "unused") (Err "unused").

(** A configuration whose group also names a gateway. *)
Definition gateway_config : purelbv1.Config :=
  purelbv1.mkConfig
    [purelbv1.mkServiceGroup "default"
       (purelbv1.mkSpec (Some (purelbv1.mkLocal "1.2.3.0/24" false))
                        (Some (purelbv1.mkEGW "http://egw.test:8080/api/egw/groups/1")))].

Definition group_answer : acnodal.Group :=
  acnodal.mkGroup (Some {[ "create-service" := "/api/egw/groups/1/services" ]}).

Definition service_answer : acnodal.Service :=
  acnodal.mkService
    (Some (<[ "group" := "/api/egw/groups/1" ]>
             (<[ "self" := "/api/egw/services/7" ]>
                {[ "create-endpoint" := "/api/egw/services/7/endpoints" ]}))).

(** A gateway that answers every call, and one that refuses to announce. *)
Definition gateway_up : Gateway unit :=
  scripted_gateway (Ok tt) (Ok group_answer) (Ok service_answer).

Definition gateway_down : Gateway unit :=
  scripted_gateway (Ok tt) (Ok group_answer) (Err "connection refused").

(** The state in which the driver asks for an address for [s]: the
    client bound, [cfg] applied, the controller marked synced. *)
Definition booted (cfg : purelbv1.Config) (s : v1.Service) : @World N Allocator.t :=
  match (SetClient [] ;; SetConfig (Some cfg) ;; MarkSynced)
          (mkWorld (NewController [] Allocator.New) s []) with
  | Some (_, w) => w
  | None => start s
  end.

Definition ready : @World N Allocator.t := booted (pool_config "1.2.3.0/24") svc.
Definition ready_gateway : @World N Allocator.t := booted gateway_config svc.

(** The state after the one address of [1.2.3.0/32] went to [test]. *)
Definition exhausted : @World N Allocator.t :=
  match (@SetBalancer N Allocator.t unit _ _ no_gateway "test" None)
          (booted (pool_config "1.2.3.0/32") svc) with
  | Some (_, w) => mkWorld (w_c w) svc (w_calls w)
  | None => start svc
  end.

(** Services asking for an address, and for a pool. *)
Definition svc_explicit : v1.Service :=
  v1.mkService "" None (v1.mkServiceSpec "LoadBalancer" "1.2.3.4" "1.2.3.7" [])
               (v1.mkServiceStatus (v1.mkLoadBalancerStatus [])).

Definition svc_pool : v1.Service :=
  v1.mkService "" (Some {[ desiredPoolAnnotation := "default" ]})
               (v1.mkServiceSpec "LoadBalancer" "1.2.3.4" "" [])
               (v1.mkServiceStatus (v1.mkLoadBalancerStatus [])).

Definition svc_no_ClusterIP : v1.Service :=
  v1.mkService "" None (v1.mkServiceSpec "LoadBalancer" "" "" [])
               (v1.mkServiceStatus (v1.mkLoadBalancerStatus [])).

(** The calls of [TestControllerConfig] before [MarkSynced]. *)
Definition unsynced_history : list (@Call N) :=
  [CallSetClient [];
   CallSetBalancer "test" svc None;
   CallSetConfig (Some (purelbv1.mkConfig []));
   CallSetBalancer "test" svc None;
   CallSetConfig (Some (pool_config "1.2.3.0/24"))].

Definition unsynced : @World N Allocator.t :=
  match @serve_all N Allocator.t unit _ _ no_gateway unsynced_history
          (mkWorld (NewController [] Allocator.New) svc []) with
  | Some (_, w) => w
  | None => start svc
  end.

(** The address [1.2.3.0]. *)
Definition addr_1_2_3_0 : N := 16909056%N.

(** An Assignment of [1.2.3.0] to a web service that shares under the
    key [team-a]. *)
Definition held_http : Allocator.Assignment :=
  Allocator.mkAssignment "web" addr_1_2_3_0 "default" [mkPort "TCP" 80] "team-a" false.

Definition loggedWarning (w : @World N Allocator.t) : bool :=
  match client (w_c w) with
  | Some evs =>
      existsb (fun ev => match ev_kind ev with Warning => true | Normal => false end) evs
  | None => false
  end.
End Scenario.

(** ** Further vocabulary: frames, outcomes, gateway settings *)
Section Coverage.
Context {IP Alloc : Type}.
Context `{!NetLib IP, !AllocatorAPI IP Alloc}.

(** The allocator and the record of calls into it are as they were. *)
Definition same_allocator : relation (@World IP Alloc) :=
  fun w w' => ips (w_c w') = ips (w_c w) /\ w_calls w' = w_calls w.

(** The annotation keys that [SetBalancer] writes (service.go, lines 79,
    80 and 106 to 108). *)
Definition written_annotations : list string :=
  [brandAnnotation; poolAnnotation; groupAnnotation; serviceAnnotation;
   endpointAnnotation].

(** Two services make the same request: same name, same spec, and the
    same annotations but for the written ones. *)
Definition same_request_svc : relation v1.Service :=
  fun svc svc' =>
    v1.Name svc' = v1.Name svc
    /\ v1.Spec svc' = v1.Spec svc
    /\ forall k, k ∉ written_annotations ->
                 default ∅ (v1.Annotations svc') !! k
                 = default ∅ (v1.Annotations svc) !! k.

Definition same_request : relation (@World IP Alloc) :=
  fun w w' => same_request_svc (w_svc w) (w_svc w').

(** [yields m P]: whatever [m] returns satisfies [P]. *)
Definition yields {A : Type} (m : @M IP Alloc A) (P : A -> Prop) : Prop :=
  forall w a w', m w = Some (a, w') -> P a.

(** The outcomes of [SetBalancer]. *)
Definition success_or_error (st : k8s.SyncState) : Prop :=
  st = k8s.SyncStateSuccess \/ st = k8s.SyncStateError.

(** An allocation call for the key [name]: one of the three strategies of
    [allocateIP]. *)
Definition allocation_for (name : string) (call : @AllocCall IP) : Prop :=
  match call with
  | CallAssign key _ _ _ => key = name
  | CallAllocateFromPool key _ _ _ => key = name
  | CallAllocate key _ _ => key = name
  | CallSetPools _ => False
  | CallUnassign _ => False
  end.

(** The allocator after a call. *)
Definition performed (a : Alloc) (call : @AllocCall IP) : Alloc :=
  match call with
  | CallSetPools groups => snd (SetPools a groups)
  | CallAssign key ip ports sharingKey => snd (Assign a key ip ports sharingKey)
  | CallAllocateFromPool key pool ports sharingKey =>
      snd (AllocateFromPool a key pool ports sharingKey)
  | CallAllocate key ports sharingKey => snd (Allocate a key ports sharingKey)
  | CallUnassign key => snd (Unassign a key)
  end.

(** C7 as the specification words it, for a synced controller and a
    service that has no address yet: a service with a load-balancer IP
    gets a call of [Assign] with an address, one without but with a pool
    annotation a call of [AllocateFromPool], any other a call of
    [Allocate]. *)
Definition strategy_by_request (w : @World IP Alloc) (key : string) : Prop :=
  let svc := w_svc w in
  let desiredPool := map_index (v1.Annotations svc) desiredPoolAnnotation in
  synced (w_c w) = true ->
  has_address svc = false ->
  (v1.LoadBalancerIP (v1.Spec svc) <> "" ->
   exists ip r w1,
     allocateIP key w = Some (r, w1)
     /\ w_calls w1 = w_calls w ++ [CallAssign key ip (Ports svc) (SharingKey svc)])
  /\ (v1.LoadBalancerIP (v1.Spec svc) = "" ->
      desiredPool <> "" ->
      exists r w1,
        allocateIP key w = Some (r, w1)
        /\ w_calls w1
           = w_calls w ++ [CallAllocateFromPool key desiredPool (Ports svc) (SharingKey svc)])
  /\ (v1.LoadBalancerIP (v1.Spec svc) = "" ->
      desiredPool = "" ->
      exists r w1,
        allocateIP key w = Some (r, w1)
        /\ w_calls w1 = w_calls w ++ [CallAllocate key (Ports svc) (SharingKey svc)]).

(** The gateway URLs of a list of groups, in the order of the groups. *)
Definition gateway_URLs (groups : list purelbv1.ServiceGroup) : list string :=
  omap (fun group => purelbv1.URL <$> purelbv1.EGW (purelbv1.Spec group)) groups.

Definition parses (g : string) : Prop :=
  exists u, url_Parse g = Ok u.

(** The base URL that the loop of [SetConfig] leaves after reading the
    gateway URLs [urls], all of which parse, when it started with
    [before]: that of the last one, its path cleared. *)
Definition base_after (urls : list string) (before : option url.URL)
    : option url.URL :=
  match last urls with
  | Some g =>
      match url_Parse g with
      | Ok u => Some (url.set_Path "" u)
      | Err _ => None
      end
  | None => before
  end.

(** The group URL that the loop leaves: the last one read. *)
Definition group_after (urls : list string) (before : option string)
    : option string :=
  match last urls with
  | Some g => Some g
  | None => before
  end.
End Coverage.

Section CoverageDriver.
Context {IP Alloc : Type}.

(** The call that binds the client. *)
Definition is_SetClient (call : @Call IP) : bool :=
  match call with
  | CallSetClient _ => true
  | _ => false
  end.

(** A client that was nil is nil still. *)
Definition still_unbound : relation (@World IP Alloc) :=
  fun w w' => client (w_c w) = None -> client (w_c w') = None.
End CoverageDriver.

(** ** Further scenarios *)
Module Cases.
(** A configuration whose range text is no range. *)
Definition bad_pool_config : purelbv1.Config :=
  Scenario.pool_config "1.2.3.0-1.2.2.0".

Definition second_URL : string := "http://egw.test:8080/api/egw/groups/2".

(** Two groups with a gateway each. *)
Definition two_gateways_config : purelbv1.Config :=
  purelbv1.mkConfig
    [purelbv1.mkServiceGroup "default"
       (purelbv1.mkSpec (Some (purelbv1.mkLocal "1.2.3.0/24" false))
                        (Some (purelbv1.mkEGW "http://egw.test:8080/api/egw/groups/1")));
     purelbv1.mkServiceGroup "other"
       (purelbv1.mkSpec (Some (purelbv1.mkLocal "1.2.4.0/24" false))
                        (Some (purelbv1.mkEGW second_URL)))].

(** The same, the second gateway URL starting with the colon of a scheme
    that is missing. *)
Definition bad_gateway_config : purelbv1.Config :=
  purelbv1.mkConfig
    [purelbv1.mkServiceGroup "default"
       (purelbv1.mkSpec (Some (purelbv1.mkLocal "1.2.3.0/24" false))
                        (Some (purelbv1.mkEGW "http://egw.test:8080/api/egw/groups/1")));
     purelbv1.mkServiceGroup "other"
       (purelbv1.mkSpec (Some (purelbv1.mkLocal "1.2.4.0/24" false))
                        (Some (purelbv1.mkEGW "://egw.test:8080/api/egw/groups/2")))].

(** The calls that bring a new controller to [Scenario.ready_gateway]. *)
Definition boot_history : list (@Call N) :=
  [CallSetClient [];
   CallSetConfig (Some Scenario.gateway_config);
   CallMarkSynced].

(** The same without [SetClient], and without a gateway. *)
Definition clientless_history : list (@Call N) :=
  [CallSetConfig (Some (Scenario.pool_config "1.2.3.0/24"));
   CallMarkSynced].

Definition clientless : @World N Allocator.t :=
  match @serve_all N Allocator.t unit _ _ Scenario.no_gateway clientless_history
          (mkWorld (NewController [] Allocator.New) Scenario.svc []) with
  | Some (_, w) => w
  | None => Scenario.start Scenario.svc
  end.

(** A service that asks for an address that is none, and names a pool. *)
Definition svc_bad_IP : v1.Service :=
  v1.mkService "" (Some {[ desiredPoolAnnotation := "default" ]})
               (v1.mkServiceSpec "LoadBalancer" "1.2.3.4" "1.2.3" [])
               (v1.mkServiceStatus (v1.mkLoadBalancerStatus [])).

(** A service with a sharing key, a pool request and an annotation of its
    owner's. *)
Definition svc_annotated : v1.Service :=
  v1.mkService "web"
    (Some (<[ sharingAnnotation := "team-a" ]>
             (<[ desiredPoolAnnotation := "default" ]>
                {[ "example.com/owner" := "ops" ]})))
    (v1.mkServiceSpec "LoadBalancer" "1.2.3.4" "" [v1.mkServicePort "TCP" 80])
    (v1.mkServiceStatus (v1.mkLoadBalancerStatus [])).
End Cases.

(** * Proofs *)

(** ** Reasoning about what a computation leaves alone *)
Section Frames.
Context {IP Alloc : Type}.
Context (R : relation (@World IP Alloc)) `{!PreOrder R}.

Lemma keeps_ret {A} (a : A) : keeps (ret a) R.
Proof. intros w a' w' [= _ <-]. reflexivity. Qed.

Lemma keeps_panic {A} : keeps (@panic IP Alloc A) R.
Proof. intros w a w' [=]. Qed.

Lemma keeps_bind {A B} (m : @M IP Alloc A) (k : A -> @M IP Alloc B) :
  keeps m R -> (forall a, keeps (k a) R) -> keeps (bind m k) R.
Proof.
  intros Hm Hk w b w'. unfold bind.
  destruct (m w) as [[a w1]|] eqn:E; [|discriminate].
  intros Hb. transitivity w1; [exact (Hm _ _ _ E) | exact (Hk _ _ _ _ Hb)].
Qed.

Lemma keeps_get_c : keeps get_c R.
Proof. intros w a w' [= _ <-]. reflexivity. Qed.

Lemma keeps_get_svc : keeps get_svc R.
Proof. intros w a w' [= _ <-]. reflexivity. Qed.

Lemma keeps_deref {A} (p : option A) : keeps (deref p) R.
Proof. destruct p; [apply keeps_ret | apply keeps_panic]. Qed.
End Frames.

#[local] Instance same_synced_preorder {IP Alloc : Type} :
  PreOrder (@same_synced IP Alloc).
Proof.
  split; unfold same_synced; [intros w; reflexivity | intros w1 w2 w3; congruence].
Qed.

#[local] Instance same_status_preorder {IP Alloc : Type} :
  PreOrder (@same_status IP Alloc).
Proof.
  split; unfold same_status; [intros w; split; reflexivity |].
  intros w1 w2 w3 [? ?] [? ?]. split; congruence.
Qed.

#[local] Instance same_gateway_preorder {IP Alloc : Type} :
  PreOrder (@same_gateway IP Alloc).
Proof.
  split; unfold same_gateway; [intros w; split; reflexivity |].
  intros w1 w2 w3 [? ?] [? ?]. split; congruence.
Qed.

(** A state update that visibly leaves the framed fields alone. *)
Ltac frame_prim :=
  let w := fresh "w" in
  intros w ? ? [= _ <-];
  unfold same_synced, same_status, same_gateway; cbn;
  repeat match goal with
         | |- context [match ?x with _ => _ end] => destruct x; cbn
         end;
  auto.

Ltac frame_step :=
  match goal with
  | |- keeps (bind _ _) _ => apply (keeps_bind _); [| intros ?]
  | |- keeps (ret _) _ => apply (keeps_ret _)
  | |- keeps panic _ => apply keeps_panic
  | |- keeps get_c _ => apply (keeps_get_c _)
  | |- keeps get_svc _ => apply (keeps_get_svc _)
  | |- keeps (deref _) _ => apply (keeps_deref _)
  | |- keeps (modify_c _) _ => frame_prim
  | |- keeps (modify_svc _) _ => frame_prim
  | |- keeps (record_call _) _ => frame_prim
  | |- keeps (let '(_, _) := ?x in _) _ => destruct x
  | |- keeps (match ?x with _ => _ end) _ => destruct x
  | |- keeps (if ?b then _ else _) _ => destruct b
  end.

Ltac frame := repeat frame_step.

Section HandlerFrames.
Context {IP Alloc EGW : Type}.
Context `{!NetLib IP, !AllocatorAPI IP Alloc, !Gateway EGW}.
Implicit Types (w : @World IP Alloc) (c : @controller IP Alloc).

Lemma SetBalancer_synced name eps : keeps (SetBalancer name eps) same_synced.
Proof.
  unfold SetBalancer, allocateIP, announce, client_Errorf, client_Infof, publish,
    svc_set_Annotation, logger_Log, ips_Assign, ips_AllocateFromPool,
    ips_Allocate, ips_call.
  frame.
Qed.

Lemma SetConfig_groups_synced groups :
  keeps (Alloc := Alloc) (SetConfig_groups groups) same_synced.
Proof.
  induction groups as [|group rest IH]; cbn [SetConfig_groups]; [frame|].
  unfold logger_Log.
  repeat first [exact IH | frame_step].
Qed.

Lemma SetConfig_synced cfg : keeps (SetConfig cfg) same_synced.
Proof.
  unfold SetConfig, SetConfig_body, ips_SetPools, ips_call, logger_Log.
  repeat first [apply SetConfig_groups_synced | frame_step].
Qed.

Lemma DeleteBalancer_synced name : keeps (DeleteBalancer name) same_synced.
Proof. unfold DeleteBalancer, ips_Unassign, ips_call, logger_Log. frame. Qed.

Lemma serve_synced call :
  is_MarkSynced call = false -> keeps (serve call) same_synced.
Proof.
  destruct call; cbn [is_MarkSynced serve]; intros Hcall; try discriminate.
  - unfold SetClient. frame.
  - repeat first [apply SetConfig_synced | frame_step].
  - repeat first [apply SetBalancer_synced | frame_step].
  - repeat first [apply DeleteBalancer_synced | frame_step].
  - unfold Shutdown, logger_Log. frame.
Qed.

(** Only [MarkSynced] changes the [synced] flag. *)
Lemma serve_all_synced history :
  forallb (fun call => negb (is_MarkSynced call)) history = true ->
  keeps (serve_all history) same_synced.
Proof.
  induction history as [|call rest IH]; cbn [forallb serve_all]; intros Hh.
  - apply (keeps_ret _).
  - apply andb_true_iff in Hh as [Hcall Hrest].
    apply negb_true_iff in Hcall.
    apply (keeps_bind _); [apply serve_synced, Hcall | intros _; apply IH, Hrest].
Qed.

Lemma SetBalancer_gateway name eps : keeps (SetBalancer name eps) same_gateway.
Proof.
  unfold SetBalancer, allocateIP, announce, client_Errorf, client_Infof, publish,
    svc_set_Annotation, logger_Log, ips_Assign, ips_AllocateFromPool,
    ips_Allocate, ips_call.
  frame.
Qed.

Lemma DeleteBalancer_gateway name : keeps (DeleteBalancer name) same_gateway.
Proof. unfold DeleteBalancer, ips_Unassign, ips_call, logger_Log. frame. Qed.

Lemma svc_set_Annotation_status k v :
  keeps (IP := IP) (Alloc := Alloc) (svc_set_Annotation k v) same_status.
Proof.
  intros w a w'. unfold svc_set_Annotation, bind, get_svc, v1.set_Annotation.
  destruct (v1.Annotations (w_svc w)); cbn; [|discriminate].
  intros [= _ <-]. split; reflexivity.
Qed.

Lemma announce_status base :
  keeps (Alloc := Alloc) (announce base) same_status.
Proof.
  unfold announce, client_Errorf, publish, logger_Log.
  repeat first [apply svc_set_Annotation_status | frame_step].
Qed.
End HandlerFrames.

(** ** What the handlers compute, path by path *)
Section Runs.
Context {IP Alloc EGW : Type}.
Context `{!NetLib IP, !AllocatorAPI IP Alloc, !Gateway EGW}.
Implicit Types (w : @World IP Alloc) (c : @controller IP Alloc).

Lemma SetBalancer_unsynced w name eps :
  synced (w_c w) = false ->
  SetBalancer name eps w =
    Some (k8s.SyncStateError,
          mkWorld (logged [AStr "op"; AStr "allocateIP"; AStr "error";
                           AStr "controller not synced"] (w_c w))
                  (w_svc w) (w_calls w)).
Proof.
  intros Hs. unfold SetBalancer, bind at 1. cbn. rewrite Hs. reflexivity.
Qed.

Lemma SetBalancer_noClusterIP w name eps :
  synced (w_c w) = true ->
  ParseIP (v1.ClusterIP (v1.Spec (w_svc w))) = None ->
  SetBalancer name eps w =
    Some (k8s.SyncStateSuccess,
          mkWorld (logged [AStr "event"; AStr "clearAssignment"; AStr "reason";
                           AStr "noClusterIP"] (w_c w))
                  (w_svc w) (w_calls w)).
Proof.
  intros Hs Hip. unfold SetBalancer, bind at 1. cbn. rewrite Hs. cbn.
  unfold bind at 1. cbn. rewrite Hip. reflexivity.
Qed.

Lemma SetBalancer_ipAlreadySet w name eps clusterIP :
  synced (w_c w) = true ->
  ParseIP (v1.ClusterIP (v1.Spec (w_svc w))) = Some clusterIP ->
  has_address (w_svc w) = true ->
  SetBalancer name eps w =
    Some (k8s.SyncStateSuccess,
          mkWorld (logged [AStr "event"; AStr "ipAlreadySet"] (w_c w))
                  (w_svc w) (w_calls w)).
Proof.
  intros Hs Hip Hhas. unfold SetBalancer, bind at 1. cbn. rewrite Hs. cbn.
  unfold bind at 1. cbn. rewrite Hip, Hhas. reflexivity.
Qed.

Lemma SetBalancer_allocateIP w name eps clusterIP :
  synced (w_c w) = true ->
  ParseIP (v1.ClusterIP (v1.Spec (w_svc w))) = Some clusterIP ->
  has_address (w_svc w) = false ->
  SetBalancer name eps w =
    (r <- allocateIP name ;;
     match r with
     | Err err =>
         logger_Log [AStr "op"; AStr "allocateIP"; AStr "error"; AErr err;
                     AStr "msg"; AStr "IP allocation failed"] ;;
         client_Errorf "AllocationFailed" "Failed to allocate IP for %q: %s"
                       [AStr name; AErr err] ;;
         ret k8s.SyncStateSuccess
     | Ok (pool, lbIP) =>
         logger_Log [AStr "event"; AStr "ipAllocated"; AStr "ip"; AIP lbIP;
                     AStr "pool"; AStr pool; AStr "service"; AStr name] ;;
         client_Infof "IPAllocated" "Assigned IP %q" [AIP lbIP] ;;
         modify_svc (v1.set_Ingress [v1.mkLoadBalancerIngress (IP_String lbIP) ""]) ;;
         modify_svc v1.init_Annotations ;;
         svc_set_Annotation brandAnnotation brand ;;
         svc_set_Annotation poolAnnotation pool ;;
         c <- get_c ;;
         match baseURL c with
         | Some base => announce base
         | None => ret k8s.SyncStateSuccess
         end
     end) w.
Proof.
  intros Hs Hip Hhas. unfold SetBalancer, bind at 1. cbn. rewrite Hs. cbn.
  unfold bind at 1. cbn. rewrite Hip, Hhas. reflexivity.
Qed.

Lemma SetBalancer_allocation_failed w name eps clusterIP err w1 k :
  synced (w_c w) = true ->
  ParseIP (v1.ClusterIP (v1.Spec (w_svc w))) = Some clusterIP ->
  has_address (w_svc w) = false ->
  allocateIP name w = Some (Err err, w1) ->
  client (w_c w1) = Some k ->
  SetBalancer name eps w =
    Some (k8s.SyncStateSuccess,
          mkWorld (published k (mkEvent Warning "AllocationFailed"
                                  "Failed to allocate IP for %q: %s" [AStr name; AErr err])
                     (logged [AStr "op"; AStr "allocateIP"; AStr "error"; AErr err;
                              AStr "msg"; AStr "IP allocation failed"] (w_c w1)))
                  (w_svc w1) (w_calls w1)).
Proof.
  intros Hs Hip Hhas Hal Hk.
  rewrite (SetBalancer_allocateIP _ _ _ _ Hs Hip Hhas).
  unfold bind at 1. rewrite Hal.
  unfold client_Errorf, publish, logger_Log, bind, modify_c, get_c. cbn.
  rewrite Hk. reflexivity.
Qed.

Lemma SetBalancer_allocated w name eps clusterIP pool lbIP w1 k :
  synced (w_c w) = true ->
  ParseIP (v1.ClusterIP (v1.Spec (w_svc w))) = Some clusterIP ->
  has_address (w_svc w) = false ->
  allocateIP name w = Some (Ok (pool, lbIP), w1) ->
  client (w_c w1) = Some k ->
  SetBalancer name eps w =
    match baseURL (w_c w1) with
    | Some base => announce base
    | None => ret k8s.SyncStateSuccess
    end
      (mkWorld (published k (mkEvent Normal "IPAllocated" "Assigned IP %q" [AIP lbIP])
                  (logged [AStr "event"; AStr "ipAllocated"; AStr "ip"; AIP lbIP;
                           AStr "pool"; AStr pool; AStr "service"; AStr name] (w_c w1)))
               (programmed pool lbIP (w_svc w1)) (w_calls w1)).
Proof.
  intros Hs Hip Hhas Hal Hk.
  rewrite (SetBalancer_allocateIP _ _ _ _ Hs Hip Hhas).
  unfold bind at 1. rewrite Hal. clear Hal.
  unfold client_Infof, publish, logger_Log, svc_set_Annotation, bind, modify_c,
    modify_svc, get_c, get_svc.
  destruct w1 as [c1 [n [m|] sp st] calls1]; cbn in *; rewrite Hk; reflexivity.
Qed.

Lemma ips_call_run {A} (call : @AllocCall IP) (op : Alloc -> A * Alloc) w :
  ips_call call op w =
    Some (fst (op (ips (w_c w))), after_call w (snd (op (ips (w_c w)))) call).
Proof.
  unfold ips_call, bind, record_call, get_c, after_call. cbn.
  destruct (op (ips (w_c w))); reflexivity.
Qed.

Lemma allocateIP_explicit w key ip :
  v1.LoadBalancerIP (v1.Spec (w_svc w)) <> "" ->
  ParseIP (v1.LoadBalancerIP (v1.Spec (w_svc w))) = Some ip ->
  allocateIP key w =
    let call := Assign (ips (w_c w)) key ip (Ports (w_svc w)) (SharingKey (w_svc w)) in
    Some (match fst call with
          | Ok pool => Ok (pool, ip)
          | Err err => Err err
          end,
          after_call w (snd call)
            (CallAssign key ip (Ports (w_svc w)) (SharingKey (w_svc w)))).
Proof.
  intros Hne Hip. apply String.eqb_neq in Hne.
  unfold allocateIP, bind at 1. cbn. rewrite Hne, Hip. cbn.
  unfold ips_Assign, bind. rewrite ips_call_run.
  destruct (fst _); reflexivity.
Qed.

Lemma allocateIP_invalid w key :
  v1.LoadBalancerIP (v1.Spec (w_svc w)) <> "" ->
  ParseIP (v1.LoadBalancerIP (v1.Spec (w_svc w))) = None ->
  allocateIP key w =
    Some (Err (invalid_loadBalancerIP (v1.LoadBalancerIP (v1.Spec (w_svc w)))), w).
Proof.
  intros Hne Hip. apply String.eqb_neq in Hne.
  unfold allocateIP, bind at 1. cbn. rewrite Hne, Hip. reflexivity.
Qed.

Lemma allocateIP_pool w key :
  v1.LoadBalancerIP (v1.Spec (w_svc w)) = "" ->
  map_index (v1.Annotations (w_svc w)) desiredPoolAnnotation <> "" ->
  allocateIP key w =
    let desiredPool := map_index (v1.Annotations (w_svc w)) desiredPoolAnnotation in
    let call := AllocateFromPool (ips (w_c w)) key desiredPool
                                 (Ports (w_svc w)) (SharingKey (w_svc w)) in
    Some (match fst call with
          | Ok ip => Ok (desiredPool, ip)
          | Err err => Err err
          end,
          after_call w (snd call)
            (CallAllocateFromPool key desiredPool (Ports (w_svc w)) (SharingKey (w_svc w)))).
Proof.
  intros He Hne. apply String.eqb_neq in Hne.
  unfold allocateIP, bind at 1. cbn. rewrite He. cbn. rewrite Hne. cbn.
  unfold ips_AllocateFromPool, bind. rewrite ips_call_run.
  destruct (fst _); reflexivity.
Qed.

Lemma allocateIP_any w key :
  v1.LoadBalancerIP (v1.Spec (w_svc w)) = "" ->
  map_index (v1.Annotations (w_svc w)) desiredPoolAnnotation = "" ->
  allocateIP key w =
    let call := Allocate (ips (w_c w)) key (Ports (w_svc w)) (SharingKey (w_svc w)) in
    Some (fst call,
          after_call w (snd call)
            (CallAllocate key (Ports (w_svc w)) (SharingKey (w_svc w)))).
Proof.
  intros He Hd.
  unfold allocateIP, bind at 1. cbn. rewrite He. cbn. rewrite Hd. cbn.
  unfold after_call. destruct (Allocate _ _ _ _); reflexivity.
Qed.

(** [allocateIP] always returns, and touches nothing but the allocator
    and the record of calls. *)
Lemma allocateIP_shape w key :
  exists r a calls,
    allocateIP key w =
      Some (r, mkWorld (set_ips a (w_c w)) (w_svc w) (w_calls w ++ calls)).
Proof.
  destruct (String.eqb_spec (v1.LoadBalancerIP (v1.Spec (w_svc w))) "") as [He|Hne].
  - destruct (String.eqb_spec (map_index (v1.Annotations (w_svc w)) desiredPoolAnnotation) "")
      as [Hd|Hd].
    + rewrite (allocateIP_any _ _ He Hd). cbn. eauto.
    + rewrite (allocateIP_pool _ _ He Hd). cbn. eauto.
  - destruct (ParseIP (v1.LoadBalancerIP (v1.Spec (w_svc w)))) as [ip|] eqn:Hip.
    + rewrite (allocateIP_explicit _ _ _ Hne Hip). cbn. eauto.
    + rewrite (allocateIP_invalid _ _ Hne Hip).
      exists (Err (invalid_loadBalancerIP (v1.LoadBalancerIP (v1.Spec (w_svc w))))),
        (ips (w_c w)), [].
      rewrite app_nil_r. destruct w as [[] ? ?]. reflexivity.
Qed.

Lemma allocateIP_frame w key r w1 :
  allocateIP key w = Some (r, w1) ->
  w_svc w1 = w_svc w /\ client (w_c w1) = client (w_c w)
  /\ synced (w_c w1) = synced (w_c w) /\ baseURL (w_c w1) = baseURL (w_c w)
  /\ groupURL (w_c w1) = groupURL (w_c w).
Proof.
  destruct (allocateIP_shape w key) as (r' & a & calls & Hrun).
  rewrite Hrun. intros [= _ <-]. cbn. auto.
Qed.

Lemma announce_succeeded base w g ing rest m egwsvc :
  groupURL (w_c w) = Some g ->
  v1.Ingress (v1.LoadBalancer (v1.Status (w_svc w))) = ing :: rest ->
  v1.Annotations (w_svc w) = Some m ->
  announcement base g (v1.Name (w_svc w)) (v1.IP ing) = Ok egwsvc ->
  announce base w =
    Some (k8s.SyncStateSuccess, mkWorld (w_c w) (linked egwsvc (w_svc w)) (w_calls w)).
Proof.
  intros Hg Hing Hm. unfold announcement, announce.
  destruct (acnodal_New _ _) as [egw|]; [|discriminate].
  unfold bind at 1. cbn. unfold bind at 1. rewrite Hg. cbn.
  destruct (GetGroup egw g) as [group|]; [|discriminate].
  unfold bind at 1. cbn. unfold bind at 1. rewrite Hing. cbn.
  intros ->.
  unfold svc_set_Annotation, bind, get_svc, modify_svc, v1.set_Annotation, linked. cbn.
  rewrite Hm. cbn. reflexivity.
Qed.

Lemma announce_failed base w g ing rest k err :
  groupURL (w_c w) = Some g ->
  v1.Ingress (v1.LoadBalancer (v1.Status (w_svc w))) = ing :: rest ->
  client (w_c w) = Some k ->
  announcement base g (v1.Name (w_svc w)) (v1.IP ing) = Err err ->
  exists line ev,
    ev_kind ev = Warning /\
    announce base w =
      Some (k8s.SyncStateError,
            mkWorld (published k ev (logged line (w_c w))) (w_svc w) (w_calls w)).
Proof.
  intros Hg Hing Hk. unfold announcement, announce.
  destruct (acnodal_New _ _) as [egw|err0].
  - unfold bind at 1. cbn. unfold bind at 1. rewrite Hg. cbn.
    destruct (GetGroup egw g) as [group|err1].
    + unfold bind at 1. cbn. unfold bind at 1. rewrite Hing. cbn.
      intros ->.
      unfold client_Errorf, publish, logger_Log, bind, modify_c, get_c. cbn.
      rewrite Hk. cbn. eexists _, _. split; [|reflexivity]. reflexivity.
    + intros _.
      unfold client_Errorf, publish, logger_Log, bind, modify_c, get_c. cbn.
      rewrite Hk. cbn. eexists _, _. split; [|reflexivity]. reflexivity.
  - intros _.
    unfold client_Errorf, publish, logger_Log, bind, modify_c, get_c, get_svc. cbn.
    rewrite Hk. cbn. eexists _, _. split; [|reflexivity]. reflexivity.
Qed.

Lemma DeleteBalancer_run w name :
  exists w',
    DeleteBalancer name w = Some (k8s.SyncStateReprocessAll, w')
    /\ ips (w_c w') = snd (Unassign (ips (w_c w)) name)
    /\ w_calls w' = w_calls w ++ [CallUnassign name]
    /\ w_svc w' = w_svc w.
Proof.
  unfold DeleteBalancer, ips_Unassign. unfold bind at 1. rewrite ips_call_run.
  destruct (Unassign (ips (w_c w)) name) as [[|] a']; cbn;
    (eexists; split; [reflexivity |]; cbn; auto).
Qed.
End Runs.

(** ** The gateway settings stay wired *)
Section Wired.
Context {IP Alloc EGW : Type}.
Context `{!NetLib IP, !AllocatorAPI IP Alloc, !Gateway EGW}.
Implicit Types (w : @World IP Alloc) (c : @controller IP Alloc).

Lemma same_gateway_wired w w' :
  same_gateway w w' -> wired w -> wired w'.
Proof. unfold same_gateway, wired. intros [-> ->]. auto. Qed.

Lemma SetConfig_groups_wired groups w w' r :
  SetConfig_groups groups w = Some (r, w') -> wired w -> wired w'.
Proof.
  revert w. induction groups as [|group rest IH]; intros w; cbn [SetConfig_groups].
  - intros [= _ <-]. auto.
  - destruct (purelbv1.EGW (purelbv1.Spec group)) as [egw|]; [| apply IH].
    unfold bind, modify_c, get_c, logger_Log. cbn.
    destruct (url_Parse (purelbv1.URL egw)) as [u|err]; cbn.
    + intros Hrun _. apply (IH _ Hrun). intros _. cbn. eauto.
    + intros [= _ <-] _ _. cbn. eauto.
Qed.

Lemma SetConfig_wired cfg w w' r :
  SetConfig cfg w = Some (r, w') -> wired w -> wired w'.
Proof.
  unfold SetConfig, SetConfig_body. destruct cfg as [cfg|].
  - unfold ips_SetPools, bind at 1. unfold bind at 1. rewrite ips_call_run.
    destruct (fst (SetPools (ips (w_c w)) (purelbv1.Groups cfg))) as [err|].
    + intros [= _ <-]. unfold wired. cbn. auto.
    + unfold bind, modify_c, logger_Log. cbn.
      destruct (SetConfig_groups _ _) as [[early w1]|] eqn:Hloop; [|discriminate].
      intros Hrun _.
      assert (wired w1) as Hw1.
      { apply (SetConfig_groups_wired _ _ _ _ Hloop). intros [? [=]]. }
      destruct early; injection Hrun as _ <-; exact Hw1.
  - intros [= _ <-]. unfold wired. cbn. auto.
Qed.

(** Every state that the driver reaches from a wired state is wired, and
    a new controller is: [SetBalancer] does not panic on [*c.groupURL]. *)
Lemma serve_all_wired history w w' :
  serve_all history w = Some (tt, w') -> wired w -> wired w'.
Proof.
  revert w. induction history as [|call rest IH]; intros w; cbn [serve_all].
  - intros [= <-]. auto.
  - unfold bind at 1. destruct (serve call w) as [[[] w1]|] eqn:Hcall; [|discriminate].
    intros Hrest Hw. apply (IH _ Hrest). clear Hrest IH.
    destruct call; cbn [serve] in Hcall.
    + injection Hcall as <-. exact Hw.
    + unfold bind in Hcall.
      destruct (SetConfig cfg w) as [[st w2]|] eqn:Hcfg; [|discriminate].
      injection Hcall as <-. exact (SetConfig_wired _ _ _ _ Hcfg Hw).
    + unfold bind at 1 in Hcall. cbn in Hcall. unfold bind in Hcall.
      destruct (SetBalancer name eps _) as [[st w2]|] eqn:Hset; [|discriminate].
      injection Hcall as <-.
      exact (same_gateway_wired _ _ (SetBalancer_gateway _ _ _ _ _ Hset) Hw).
    + unfold bind in Hcall.
      destruct (DeleteBalancer name w) as [[st w2]|] eqn:Hdel; [|discriminate].
      injection Hcall as <-.
      exact (same_gateway_wired _ _ (DeleteBalancer_gateway _ _ _ _ Hdel) Hw).
    + injection Hcall as <-. exact Hw.
    + injection Hcall as <-. exact Hw.
Qed.

Lemma NewController_wired (l : list (list (@Arg IP))) (a : Alloc) svc :
  wired (mkWorld (NewController l a) svc []).
Proof. intros [u Hu]. discriminate Hu. Qed.
End Wired.

(** ** The claims about the controller *)
Section Claims.
Context {IP Alloc EGW : Type}.
Context `{!NetLib IP, !AllocatorAPI IP Alloc, !Gateway EGW}.
Implicit Types (w : @World IP Alloc) (c : @controller IP Alloc).

Lemma programmed_shows pool (lbIP : IP) svc :
  shows_allocation (programmed pool lbIP svc) pool lbIP.
Proof.
  split; [reflexivity |]. eexists. split; [reflexivity |].
  unfold poolAnnotation, brandAnnotation. split; by simplify_map_eq.
Qed.

Lemma linked_shows egwsvc pool (lbIP : IP) svc :
  shows_allocation svc pool lbIP ->
  shows_allocation (linked egwsvc svc) pool lbIP.
Proof.
  intros [Hing (m & Hm & Hb & Hp)]. split; [exact Hing |].
  eexists. split; [reflexivity |]. rewrite Hm. cbn.
  unfold poolAnnotation, brandAnnotation, endpointAnnotation, serviceAnnotation,
    groupAnnotation in *.
  split; by simplify_map_eq.
Qed.

(** What [SetBalancer] does once [allocateIP] has handed back an
    address: the service is programmed, and the outcome is that of the
    gateway, if one is configured. *)
Lemma SetBalancer_after_allocation w name eps pool lbIP :
  allocates w name pool lbIP ->
  exists w2 k,
    w_svc w2 = programmed pool lbIP (w_svc w)
    /\ client (w_c w2) = Some (k ++ [mkEvent Normal "IPAllocated" "Assigned IP %q" [AIP lbIP]])
    /\ client (w_c w) = Some k
    /\ baseURL (w_c w2) = baseURL (w_c w)
    /\ groupURL (w_c w2) = groupURL (w_c w)
    /\ (forall w1, allocateIP name w = Some (Ok (pool, lbIP), w1) ->
                   ips (w_c w2) = ips (w_c w1) /\ w_calls w2 = w_calls w1)
    /\ SetBalancer name eps w =
         match baseURL (w_c w) with
         | Some base => announce base
         | None => ret k8s.SyncStateSuccess
         end w2.
Proof.
  intros (Hs & [clusterIP Hcl] & Hhas & [k Hk] & w1 & Hal).
  destruct (allocateIP_frame _ _ _ _ Hal) as (Hsvc1 & Hk1 & Hs1 & Hb1 & Hg1).
  rewrite Hk in Hk1.
  rewrite (SetBalancer_allocated _ _ _ _ _ _ _ _ Hs Hcl Hhas Hal Hk1).
  rewrite Hb1, Hsvc1.
  eexists (mkWorld _ _ _), k.
  split_and!; [..| reflexivity];
    [reflexivity | reflexivity | exact Hk | exact Hb1 | exact Hg1 |].
  intros w1' Hal'. rewrite Hal in Hal'. injection Hal' as <-. split; reflexivity.
Qed.

(** C1, amended.  When [allocateIP] hands back an address, [SetBalancer]
    writes it into the status of the service, sets the brand and pool
    annotations, and returns success, unless a gateway is configured and
    the announcement fails: then the outcome is the error outcome (the
    writes are made all the same). *)
Theorem SetBalancer_allocation_success w name eps pool lbIP :
  allocates w name pool lbIP ->
  wired w ->
  exists w',
    SetBalancer name eps w =
      Some (match baseURL (w_c w) with
            | None => k8s.SyncStateSuccess
            | Some base =>
                match announcement base (default "" (groupURL (w_c w)))
                                   (v1.Name (w_svc w)) (IP_String lbIP) with
                | Ok _ => k8s.SyncStateSuccess
                | Err _ => k8s.SyncStateError
                end
            end, w')
    /\ shows_allocation (w_svc w') pool lbIP.
Proof.
  intros Hal Hwired. unfold wired in Hwired.
  destruct (SetBalancer_after_allocation w name eps pool lbIP Hal)
    as (w2 & k & Hsvc2 & Hk2 & _ & Hb2 & Hg2 & _ & ->).
  destruct (baseURL (w_c w)) as [base|] eqn:Hb.
  - destruct Hwired as [g Hg]; [eauto |]. rewrite Hg in *. simpl (default _ _).
    assert (v1.Name (w_svc w2) = v1.Name (w_svc w)) as Hname by (rewrite Hsvc2; reflexivity).
    destruct (announcement base g (v1.Name (w_svc w)) (IP_String lbIP))
      as [egwsvc|err] eqn:Han.
    + erewrite announce_succeeded; [| exact Hg2 | rewrite Hsvc2; reflexivity
                                     | rewrite Hsvc2; reflexivity
                                     | rewrite Hname; exact Han].
      eexists. split; [reflexivity |]. cbn [w_svc].
      apply linked_shows. rewrite Hsvc2. apply programmed_shows.
    + edestruct (announce_failed base w2 g) as (line & ev & _ & ->);
        [exact Hg2 | rewrite Hsvc2; reflexivity | exact Hk2
         | rewrite Hname; exact Han |].
      eexists. split; [reflexivity |]. cbn [w_svc].
      rewrite Hsvc2. apply programmed_shows.
  - eexists. split; [reflexivity |]. rewrite Hsvc2. apply programmed_shows.
Qed.

(** C5, amended.  When a gateway is configured and the announcement of a
    freshly allocated address fails, [SetBalancer] returns the error
    outcome and publishes a warning; the service keeps the address in its
    status and the brand and pool annotations, which were written before
    the announcement, and gets no link annotation; the allocator keeps
    the Assignment. *)
Theorem SetBalancer_announcement_failed w name eps pool lbIP base g err :
  allocates w name pool lbIP ->
  baseURL (w_c w) = Some base ->
  groupURL (w_c w) = Some g ->
  announcement base g (v1.Name (w_svc w)) (IP_String lbIP) = Err err ->
  exists w' k ev,
    SetBalancer name eps w = Some (k8s.SyncStateError, w')
    /\ w_svc w' = programmed pool lbIP (w_svc w)
    /\ shows_allocation (w_svc w') pool lbIP
    /\ client (w_c w) = Some k
    /\ client (w_c w')
       = Some ((k ++ [mkEvent Normal "IPAllocated" "Assigned IP %q" [AIP lbIP]]) ++ [ev])
    /\ ev_kind ev = Warning
    /\ forall w1, allocateIP name w = Some (Ok (pool, lbIP), w1) ->
                  ips (w_c w') = ips (w_c w1) /\ w_calls w' = w_calls w1.
Proof.
  intros Hal Hb Hg Han.
  destruct (SetBalancer_after_allocation w name eps pool lbIP Hal)
    as (w2 & k & Hsvc2 & Hk2 & Hk & Hb2 & Hg2 & Hips & ->).
  rewrite Hb. rewrite Hg in Hg2.
  assert (v1.Name (w_svc w2) = v1.Name (w_svc w)) as Hname by (rewrite Hsvc2; reflexivity).
  edestruct (announce_failed base w2 g) as (line & ev & Hev & ->);
    [exact Hg2 | rewrite Hsvc2; reflexivity | exact Hk2 | rewrite Hname; exact Han |].
  eexists _, k, ev. split; [reflexivity |]. cbn.
  split_and!; [exact Hsvc2 | | exact Hk | reflexivity | exact Hev | exact Hips].
  rewrite Hsvc2. apply programmed_shows.
Qed.

(** C2.  A controller made by [NewController] and driven through any
    calls other than [MarkSynced] answers [SetBalancer], for every
    service, with the error outcome; the service, the allocator, the
    record of allocator calls and the published events are as before. *)
Theorem SetBalancer_before_MarkSynced
    (l : list (list Arg)) (a : Alloc) (svc0 : v1.Service) (history : list Call)
    w name svc eps :
  forallb (fun call => negb (is_MarkSynced call)) history = true ->
  serve_all history (mkWorld (NewController l a) svc0 []) = Some (tt, w) ->
  exists w',
    SetBalancer name eps (mkWorld (w_c w) svc (w_calls w))
      = Some (k8s.SyncStateError, w')
    /\ w_svc w' = svc
    /\ ips (w_c w') = ips (w_c w)
    /\ w_calls w' = w_calls w
    /\ client (w_c w') = client (w_c w).
Proof.
  intros Hhist Hrun.
  pose proof (serve_all_synced history Hhist _ _ _ Hrun) as Hs.
  unfold same_synced in Hs. cbn in Hs.
  eexists. split; [apply SetBalancer_unsynced; exact Hs |].
  cbn. auto.
Qed.

(** C9.  On a synced controller, [SetBalancer] on a service whose
    ClusterIP is empty or does not parse returns success without calling
    the allocator and without touching the service. *)
Theorem SetBalancer_without_ClusterIP `{!NetLibLaws IP} w name eps :
  synced (w_c w) = true ->
  v1.ClusterIP (v1.Spec (w_svc w)) = ""
    \/ ParseIP (v1.ClusterIP (v1.Spec (w_svc w))) = None ->
  exists w',
    SetBalancer name eps w = Some (k8s.SyncStateSuccess, w')
    /\ w_svc w' = w_svc w
    /\ w_calls w' = w_calls w
    /\ ips (w_c w') = ips (w_c w)
    /\ client (w_c w') = client (w_c w).
Proof.
  intros Hs Hip.
  assert (ParseIP (v1.ClusterIP (v1.Spec (w_svc w))) = None) as Hnone.
  { destruct Hip as [-> | Hip]; [apply ParseIP_empty | exact Hip]. }
  eexists. split; [apply SetBalancer_noClusterIP; assumption |].
  cbn. auto.
Qed.

Lemma has_address_one (svc : v1.Service) ing (ip : IP) :
  v1.Ingress (v1.LoadBalancer (v1.Status svc)) = [ing] ->
  ParseIP (v1.IP ing) = Some ip ->
  has_address svc = true.
Proof.
  intros Hing Hip. unfold has_address. rewrite Hing, Hip.
  apply bool_decide_eq_true. eauto.
Qed.

(** A synced controller leaves a service that has an address alone. *)
Lemma SetBalancer_settled w name eps :
  synced (w_c w) = true ->
  has_address (w_svc w) = true ->
  exists w',
    SetBalancer name eps w = Some (k8s.SyncStateSuccess, w')
    /\ w_svc w' = w_svc w
    /\ w_calls w' = w_calls w
    /\ ips (w_c w') = ips (w_c w)
    /\ client (w_c w') = client (w_c w).
Proof.
  intros Hs Hhas.
  destruct (ParseIP (v1.ClusterIP (v1.Spec (w_svc w)))) as [clusterIP|] eqn:Hcl.
  - eexists. split; [eapply SetBalancer_ipAlreadySet; eassumption |]. cbn. auto.
  - eexists. split; [apply SetBalancer_noClusterIP; assumption |]. cbn. auto.
Qed.

(** C10.  On a synced controller, [SetBalancer] on a service whose
    status holds exactly one ingress with a parseable IP returns success
    without calling the allocator and without touching the service; and
    after a [SetBalancer] that allocated an address and returned success,
    a further [SetBalancer] does just that. *)
Theorem SetBalancer_address_already_set `{!NetLibLaws IP} w name eps :
  synced (w_c w) = true ->
  (forall ing ip,
      v1.Ingress (v1.LoadBalancer (v1.Status (w_svc w))) = [ing] ->
      ParseIP (v1.IP ing) = Some ip ->
      exists w',
        SetBalancer name eps w = Some (k8s.SyncStateSuccess, w')
        /\ w_svc w' = w_svc w
        /\ w_calls w' = w_calls w
        /\ ips (w_c w') = ips (w_c w)
        /\ client (w_c w') = client (w_c w))
  /\ (forall clusterIP pool lbIP w0 w1,
         ParseIP (v1.ClusterIP (v1.Spec (w_svc w))) = Some clusterIP ->
         has_address (w_svc w) = false ->
         allocateIP name w = Some (Ok (pool, lbIP), w0) ->
         SetBalancer name eps w = Some (k8s.SyncStateSuccess, w1) ->
         forall name' eps',
         exists w2,
           SetBalancer name' eps' w1 = Some (k8s.SyncStateSuccess, w2)
           /\ w_svc w2 = w_svc w1
           /\ w_calls w2 = w_calls w1
           /\ ips (w_c w2) = ips (w_c w1)
           /\ client (w_c w2) = client (w_c w1)).
Proof.
  intros Hs. split.
  - intros ing ip Hing Hip.
    apply SetBalancer_settled; [exact Hs | eapply has_address_one; eassumption].
  - intros clusterIP pool lbIP w0 w1 Hcl Hhas Hal Hrun name' eps'.
    destruct (allocateIP_frame _ _ _ _ Hal) as (Hsvc0 & Hk0 & Hs0 & Hb0 & Hg0).
    rewrite (SetBalancer_allocateIP _ _ _ _ Hs Hcl Hhas) in Hrun.
    unfold bind at 1 in Hrun. rewrite Hal in Hrun.
    assert (synced (w_c w1) = true
            /\ v1.Ingress (v1.LoadBalancer (v1.Status (w_svc w1)))
               = [v1.mkLoadBalancerIngress (IP_String lbIP) ""]) as [Hs1 Hing1].
    { revert Hrun.
      unfold client_Infof, publish, logger_Log, svc_set_Annotation, bind, modify_c,
        modify_svc, get_c, get_svc.
      destruct w0 as [c0 [n [m|] sp st] calls0]; cbn in *;
        (destruct (client c0) as [k|]; cbn; [|discriminate]);
        (destruct (baseURL c0) as [base|]; cbn;
         [ intros Hann; apply announce_status in Hann as [Hst Hsy]; cbn in *;
           rewrite Hst, Hsy; cbn; split; congruence
         | intros [= <-]; cbn; split; congruence ]). }
    apply SetBalancer_settled; [exact Hs1 |].
    destruct (ParseIP_String lbIP) as [ip Hip].
    eapply has_address_one; eassumption.
Qed.

(** C4.  When [allocateIP] returns an error, [SetBalancer] leaves the
    service as it was and publishes a warning event, which carries the
    reason "AllocationFailed", the service's key and the error. *)
Theorem SetBalancer_allocation_error w name eps clusterIP err w1 k :
  synced (w_c w) = true ->
  ParseIP (v1.ClusterIP (v1.Spec (w_svc w))) = Some clusterIP ->
  has_address (w_svc w) = false ->
  client (w_c w) = Some k ->
  allocateIP name w = Some (Err err, w1) ->
  exists w',
    SetBalancer name eps w = Some (k8s.SyncStateSuccess, w')
    /\ w_svc w' = w_svc w
    /\ client (w_c w')
       = Some (k ++ [mkEvent Warning "AllocationFailed"
                       "Failed to allocate IP for %q: %s" [AStr name; AErr err]]).
Proof.
  intros Hs Hcl Hhas Hk Hal.
  destruct (allocateIP_frame _ _ _ _ Hal) as (Hsvc1 & Hk1 & _).
  rewrite Hk in Hk1.
  eexists. split; [eapply SetBalancer_allocation_failed; eassumption |].
  cbn. auto.
Qed.

(** C7, amended.  [allocateIP] chooses in this order.  When
    [spec.loadBalancerIP] is set and is the text of an address, it calls
    [Assign] with that address; when it is set and is not the text of an
    address, it returns an error and calls nothing -- it does not go on to
    the pool strategies.  When it is not set and the pool annotation is,
    it calls [AllocateFromPool] with that pool; otherwise it calls
    [Allocate].  Each time the one call is made on the allocator that the
    controller holds, the allocator it leaves is the one the controller
    holds afterwards, nothing else changes, and the result is the call's. *)
Theorem allocateIP_strategy_order w key :
  let svc := w_svc w in
  let desiredPool := map_index (v1.Annotations svc) desiredPoolAnnotation in
  (forall ip,
      v1.LoadBalancerIP (v1.Spec svc) <> "" ->
      ParseIP (v1.LoadBalancerIP (v1.Spec svc)) = Some ip ->
      allocateIP key w =
        let call := Assign (ips (w_c w)) key ip (Ports svc) (SharingKey svc) in
        Some (match fst call with
              | Ok pool => Ok (pool, ip)
              | Err err => Err err
              end,
              mkWorld (set_ips (snd call) (w_c w)) svc
                      (w_calls w ++ [CallAssign key ip (Ports svc) (SharingKey svc)])))
  /\ (v1.LoadBalancerIP (v1.Spec svc) <> "" ->
      ParseIP (v1.LoadBalancerIP (v1.Spec svc)) = None ->
      allocateIP key w
        = Some (Err (invalid_loadBalancerIP (v1.LoadBalancerIP (v1.Spec svc))), w))
  /\ (v1.LoadBalancerIP (v1.Spec svc) = "" ->
      desiredPool <> "" ->
      allocateIP key w =
        let call := AllocateFromPool (ips (w_c w)) key desiredPool
                                     (Ports svc) (SharingKey svc) in
        Some (match fst call with
              | Ok ip => Ok (desiredPool, ip)
              | Err err => Err err
              end,
              mkWorld (set_ips (snd call) (w_c w)) svc
                      (w_calls w
                       ++ [CallAllocateFromPool key desiredPool (Ports svc) (SharingKey svc)])))
  /\ (v1.LoadBalancerIP (v1.Spec svc) = "" ->
      desiredPool = "" ->
      allocateIP key w =
        let call := Allocate (ips (w_c w)) key (Ports svc) (SharingKey svc) in
        Some (fst call,
              mkWorld (set_ips (snd call) (w_c w)) svc
                      (w_calls w ++ [CallAllocate key (Ports svc) (SharingKey svc)]))).
Proof.
  cbn zeta. split_and!.
  - intros ip Hne Hip. exact (allocateIP_explicit _ _ _ Hne Hip).
  - intros Hne Hip. exact (allocateIP_invalid _ _ Hne Hip).
  - intros He Hd. exact (allocateIP_pool _ _ He Hd).
  - intros He Hd. exact (allocateIP_any _ _ He Hd).
Qed.

(** C8.  [SetConfig] with no configuration returns the error outcome
    without calling [SetPools]: the allocator (its pools and its
    Assignments) and the gateway settings are as before.  An empty
    configuration is another matter: it is handed to [SetPools], and the
    outcome is reprocess-all when [SetPools] accepts it. *)
Theorem SetConfig_nil w :
  (exists w',
      SetConfig None w = Some (k8s.SyncStateError, w')
      /\ ips (w_c w') = ips (w_c w)
      /\ w_calls w' = w_calls w
      /\ baseURL (w_c w') = baseURL (w_c w)
      /\ groupURL (w_c w') = groupURL (w_c w)
      /\ synced (w_c w') = synced (w_c w)
      /\ w_svc w' = w_svc w)
  /\ (exists w',
        SetConfig (Some (purelbv1.mkConfig [])) w
          = Some (match fst (SetPools (ips (w_c w)) []) with
                  | None => k8s.SyncStateReprocessAll
                  | Some _ => k8s.SyncStateError
                  end, w')
        /\ w_calls w' = w_calls w ++ [CallSetPools []]
        /\ ips (w_c w') = snd (SetPools (ips (w_c w)) [])).
Proof.
  split.
  - eexists. split; [reflexivity |]. cbn. repeat split; reflexivity.
  - unfold SetConfig, SetConfig_body, ips_SetPools. cbn [purelbv1.Groups].
    unfold bind at 1. unfold bind at 1. rewrite ips_call_run.
    destruct (SetPools (ips (w_c w)) []) as [[err|] a']; cbn;
      (eexists; split; [reflexivity |]; cbn; auto).
Qed.
End Claims.

(** ** The IPv4 library obeys the laws *)
Section IPv4Laws.
Import IPv4.

Lemma split_on_String sep ch rest :
  split_on sep (String ch rest) =
    if Ascii.eqb ch sep then EmptyString :: split_on sep rest
    else match split_on sep rest with
         | h :: t => String ch h :: t
         | [] => [String ch EmptyString]
         end.
Proof. reflexivity. Qed.

Lemma split_on_dotless s : dotless s = true -> split_on "." s = [s].
Proof.
  induction s as [|ch s IH]; [reflexivity |].
  cbn [dotless]. intros [Hch Hs]%andb_true_iff. apply negb_true_iff in Hch.
  rewrite split_on_String, Hch, (IH Hs). reflexivity.
Qed.

Lemma split_on_dot s t :
  dotless s = true ->
  split_on "." (s ++ String "." t)%string = s :: split_on "." t.
Proof.
  induction s as [|ch s IH]; [reflexivity |].
  cbn [dotless]. intros [Hch Hs]%andb_true_iff. apply negb_true_iff in Hch.
  change (String ch s ++ String "." t)%string with (String ch (s ++ String "." t)%string).
  rewrite split_on_String, Hch, (IH Hs). reflexivity.
Qed.

Lemma split_on_quad a b c d :
  dotless a = true -> dotless b = true -> dotless c = true -> dotless d = true ->
  split_on "." (a ++ "." ++ b ++ "." ++ c ++ "." ++ d)%string = [a; b; c; d].
Proof.
  intros Ha Hb Hc Hd.
  change (split_on "." (a ++ String "." (b ++ String "." (c ++ String "." d)))%string
          = [a; b; c; d]).
  rewrite (split_on_dot _ _ Ha), (split_on_dot _ _ Hb), (split_on_dot _ _ Hc),
    (split_on_dotless _ Hd).
  reflexivity.
Qed.

Lemma octets_round_trip :
  forallb octet_round_trip (map N.of_nat (seq 0 256)) = true.
Proof. vm_compute. reflexivity. Qed.

Lemma octet_show (n : N) :
  (n < 256)%N -> dotless (show n) = true /\ octet (show n) = Some n.
Proof.
  intros Hn.
  pose proof (proj1 (forallb_forall _ _) octets_round_trip n) as Hall.
  unfold octet_round_trip in Hall.
  apply andb_true_iff in Hall as [Hd Ho].
  - split; [exact Hd | exact (bool_decide_eq_true_1 _ Ho)].
  - apply in_map_iff. exists (N.to_nat n). split; [apply N2Nat.id |].
    apply in_seq. lia.
Qed.

Lemma parse_to_string (ip : N) : is_Some (parse (to_string ip)).
Proof.
  unfold to_string, parse.
  destruct (octet_show (ip / 16777216 mod 256)) as [Ha1 Ha2]; [apply N.mod_lt; lia |].
  destruct (octet_show (ip / 65536 mod 256)) as [Hb1 Hb2]; [apply N.mod_lt; lia |].
  destruct (octet_show (ip / 256 mod 256)) as [Hc1 Hc2]; [apply N.mod_lt; lia |].
  destruct (octet_show (ip mod 256)) as [Hd1 Hd2]; [apply N.mod_lt; lia |].
  rewrite split_on_quad by assumption.
  rewrite Ha2, Hb2, Hc2, Hd2. eauto.
Qed.
End IPv4Laws.

#[global] Instance ipv4_laws : NetLibLaws N.
Proof.
  split; [reflexivity | exact parse_to_string].
Qed.

(** ** The sharing validator and the release *)
Section SpecAllocator.

Lemma ports_conflict_spec p q :
  Allocator.ports_conflict p q = true <-> Allocator.conflicting p q.
Proof.
  unfold Allocator.conflicting. destruct p as [|x p]; [cbn; tauto |].
  destruct q as [|y q]; [cbn; tauto |].
  cbn [Allocator.ports_conflict]. rewrite existsb_exists. split.
  - intros (a & Ha & Hq). apply existsb_exists in Hq as (b & Hb & Hab).
    apply bool_decide_eq_true in Hab as ->.
    right; right. exists b. split; apply list_elem_of_In; assumption.
  - intros [Hp | [Hq | (a & Ha & Hb)]]; [discriminate.. |].
    exists a. split; [apply list_elem_of_In, Ha |].
    apply existsb_exists. exists a. split; [apply list_elem_of_In, Hb |].
    apply bool_decide_eq_true. reflexivity.
Qed.

Lemma admits_nonempty a existing ports sharingKey :
  Allocator.admits (a :: existing) ports sharingKey = true <->
    sharingKey <> ""
    /\ (forall b, b ∈ a :: existing -> Allocator.a_sharing b = sharingKey)
    /\ (forall b, b ∈ a :: existing -> ~ Allocator.conflicting ports (Allocator.a_ports b)).
Proof.
  unfold Allocator.admits.
  rewrite !andb_true_iff, negb_true_iff, String.eqb_neq, !forallb_forall.
  split.
  - intros [[Hk Hs] Hp]. split; [exact Hk |]. split.
    + intros b Hb%list_elem_of_In. apply String.eqb_eq, Hs, Hb.
    + intros b Hb%list_elem_of_In Hc%ports_conflict_spec.
      specialize (Hp b Hb). rewrite Hc in Hp. discriminate.
  - intros (Hk & Hs & Hp). split; [split; [exact Hk |] |].
    + intros b Hb%list_elem_of_In. apply String.eqb_eq, Hs, Hb.
    + intros b Hb%list_elem_of_In. apply negb_true_iff.
      destruct (Allocator.ports_conflict ports (Allocator.a_ports b)) eqn:Hc; [|reflexivity].
      exfalso. apply (Hp b Hb), ports_conflict_spec, Hc.
Qed.

(** C3.  With no existing Assignment on the address the candidate is
    admitted.  With some, it is admitted exactly when its sharing key is
    not empty, every existing Assignment has the same sharing key, and its
    ports conflict with those of no existing Assignment, the all-ports set
    conflicting with every set; an existing Assignment with an empty
    sharing key rules sharing out. *)
Theorem admits_spec (existing : list Allocator.Assignment) (ports : list Port)
    (sharingKey : string) :
  (existing = [] -> Allocator.admits existing ports sharingKey = true)
  /\ (existing <> [] ->
      (Allocator.admits existing ports sharingKey = true <->
         sharingKey <> ""
         /\ (forall a, a ∈ existing -> Allocator.a_sharing a = sharingKey)
         /\ (forall a, a ∈ existing -> ~ Allocator.conflicting ports (Allocator.a_ports a))))
  /\ (forall a, a ∈ existing -> Allocator.a_sharing a = "" ->
                Allocator.admits existing ports sharingKey = false)
  /\ (forall q, Allocator.conflicting [] q /\ Allocator.conflicting q []).
Proof.
  split_and!.
  - intros ->. reflexivity.
  - destruct existing as [|a existing]; [congruence |]. intros _.
    apply admits_nonempty.
  - intros a Ha Hempty.
    destruct existing as [|a0 existing]; [inversion Ha |].
    destruct (Allocator.admits (a0 :: existing) ports sharingKey) eqn:Hadm; [|reflexivity].
    apply admits_nonempty in Hadm as (Hk & Hs & _).
    exfalso. apply Hk. rewrite <- (Hs a Ha). exact Hempty.
  - intros q. unfold Allocator.conflicting. auto.
Qed.

(** C6.  [DeleteBalancer] returns reprocess-all whether or not the key
    held an Assignment.  The key has no Assignment afterwards and is no
    longer among the holders of its address; the other Assignments and the
    pools are as before; when the key held none, the allocator is as
    before. *)
Theorem DeleteBalancer_releases (w : @World N Allocator.t) (name : string) :
  exists w',
    DeleteBalancer name w = Some (k8s.SyncStateReprocessAll, w')
    /\ Allocator.assignments (ips (w_c w')) = delete name (Allocator.assignments (ips (w_c w)))
    /\ Allocator.pools (ips (w_c w')) = Allocator.pools (ips (w_c w))
    /\ match Allocator.assignments (ips (w_c w)) !! name with
       | Some a =>
           name ∉ default ∅ (Allocator.holders (ips (w_c w')) !! Allocator.a_addr a)
       | None => ips (w_c w') = ips (w_c w)
       end
    /\ w_svc w' = w_svc w.
Proof.
  destruct (DeleteBalancer_run w name) as (w' & Hrun & Hips & _ & Hsvc).
  exists w'. split; [exact Hrun |]. rewrite Hips.
  change (Unassign (ips (w_c w)) name)
    with (Allocator.Unassign (ips (w_c w)) name).
  unfold Allocator.Unassign.
  destruct (Allocator.assignments (ips (w_c w)) !! name) as [a|] eqn:Ha; cbn.
  - split_and!; [reflexivity | reflexivity | | exact Hsvc].
    case_bool_decide.
    + rewrite lookup_delete_eq. apply not_elem_of_empty.
    + rewrite lookup_insert_eq. cbn.
      apply not_elem_of_difference. right. apply elem_of_singleton. reflexivity.
  - split_and!; [| reflexivity | reflexivity | exact Hsvc].
    symmetry. apply delete_id. exact Ha.
Qed.
End SpecAllocator.

(** ** The claims at work on the scenarios of the tests *)
Section Witnesses.
Import Scenario.

Lemma ready_allocates :
  @allocates N Allocator.t _ _ ready "test" "default" addr_1_2_3_0.
Proof.
  unfold allocates. split_and!.
  - vm_compute. reflexivity.
  - eexists. vm_compute. reflexivity.
  - vm_compute. reflexivity.
  - eexists. vm_compute. reflexivity.
  - eexists. vm_compute. reflexivity.
Defined.

Lemma ready_gateway_allocates :
  @allocates N Allocator.t _ _ ready_gateway "test" "default" addr_1_2_3_0.
Proof.
  unfold allocates. split_and!.
  - vm_compute. reflexivity.
  - eexists. vm_compute. reflexivity.
  - vm_compute. reflexivity.
  - eexists. vm_compute. reflexivity.
  - eexists. vm_compute. reflexivity.
Defined.

Lemma SetBalancer_before_MarkSynced_witness :
  forallb (fun call => negb (is_MarkSynced call)) unsynced_history = true
  /\ @serve_all N Allocator.t unit _ _ no_gateway unsynced_history
       (mkWorld (NewController [] Allocator.New) svc []) = Some (tt, unsynced)
  /\ exists w',
       @SetBalancer N Allocator.t unit _ _ no_gateway "test" None
         (mkWorld (w_c unsynced) svc (w_calls unsynced))
         = Some (k8s.SyncStateError, w')
       /\ w_svc w' = svc
       /\ ips (w_c w') = ips (w_c unsynced)
       /\ w_calls w' = w_calls unsynced
       /\ client (w_c w') = client (w_c unsynced).
Proof.
  assert (forallb (fun call => negb (is_MarkSynced call)) unsynced_history = true)
    as Hhist by reflexivity.
  assert (@serve_all N Allocator.t unit _ _ no_gateway unsynced_history
            (mkWorld (NewController [] Allocator.New) svc []) = Some (tt, unsynced))
    as Hrun by (vm_compute; reflexivity).
  split; [exact Hhist |]. split; [exact Hrun |].
  exact (SetBalancer_before_MarkSynced (Gateway0 := no_gateway)
           [] Allocator.New svc unsynced_history unsynced "test" svc None Hhist Hrun).
Defined.

Lemma SetBalancer_without_ClusterIP_witness :
  synced (w_c (booted (pool_config "1.2.3.0/24") svc_no_ClusterIP)) = true
  /\ v1.ClusterIP (v1.Spec svc_no_ClusterIP) = ""
  /\ exists w',
       @SetBalancer N Allocator.t unit _ _ no_gateway "test" None
         (booted (pool_config "1.2.3.0/24") svc_no_ClusterIP)
         = Some (k8s.SyncStateSuccess, w')
       /\ w_svc w' = svc_no_ClusterIP
       /\ w_calls w' = w_calls (booted (pool_config "1.2.3.0/24") svc_no_ClusterIP)
       /\ ips (w_c w') = ips (w_c (booted (pool_config "1.2.3.0/24") svc_no_ClusterIP))
       /\ client (w_c w') = client (w_c (booted (pool_config "1.2.3.0/24") svc_no_ClusterIP)).
Proof.
  assert (synced (w_c (booted (pool_config "1.2.3.0/24") svc_no_ClusterIP)) = true)
    as Hs by (vm_compute; reflexivity).
  split; [exact Hs |]. split; [reflexivity |].
  exact (SetBalancer_without_ClusterIP (Gateway0 := no_gateway)
           (booted (pool_config "1.2.3.0/24") svc_no_ClusterIP) "test" None
           Hs (or_introl eq_refl)).
Defined.

(** The state that a successful [SetBalancer "test"] leaves. *)
Lemma ready_allocated :
  exists w1,
    @SetBalancer N Allocator.t unit _ _ no_gateway "test" None ready
      = Some (k8s.SyncStateSuccess, w1)
    /\ v1.Ingress (v1.LoadBalancer (v1.Status (w_svc w1)))
       = [v1.mkLoadBalancerIngress "1.2.3.0" ""]
    /\ synced (w_c w1) = true.
Proof. eexists. split; [vm_compute; reflexivity |]. split; reflexivity. Defined.

Lemma SetBalancer_address_already_set_witness :
  exists w1,
    @SetBalancer N Allocator.t unit _ _ no_gateway "test" None ready
      = Some (k8s.SyncStateSuccess, w1)
    /\ v1.Ingress (v1.LoadBalancer (v1.Status (w_svc w1)))
       = [v1.mkLoadBalancerIngress "1.2.3.0" ""]
    /\ forall name eps,
       exists w2,
         @SetBalancer N Allocator.t unit _ _ no_gateway name eps w1
           = Some (k8s.SyncStateSuccess, w2)
         /\ w_svc w2 = w_svc w1
         /\ w_calls w2 = w_calls w1
         /\ ips (w_c w2) = ips (w_c w1)
         /\ client (w_c w2) = client (w_c w1).
Proof.
  destruct ready_allocated as (w1 & Hrun & Hing & Hs1).
  destruct ready_allocates as (Hs & _ & Hhas & _ & w0 & Hal).
  assert (ParseIP (v1.ClusterIP (v1.Spec (w_svc ready))) = Some 16909060%N)
    as Hcl by (vm_compute; reflexivity).
  exists w1. split; [exact Hrun |]. split; [exact Hing |].
  intros name eps.
  assert (ParseIP (v1.IP (v1.mkLoadBalancerIngress "1.2.3.0" "")) = Some addr_1_2_3_0)
    as Hip by (vm_compute; reflexivity).
  pose proof (proj1 (SetBalancer_address_already_set (Gateway0 := no_gateway)
                       w1 name eps Hs1) _ _ Hing Hip) as Hfirst.
  pose proof (proj2 (SetBalancer_address_already_set (Gateway0 := no_gateway)
                       ready "test" None Hs)
                _ _ _ _ _ Hcl Hhas Hal Hrun name eps) as Hsecond.
  exact Hsecond.
Defined.

Lemma SetBalancer_allocation_error_witness :
  exists w',
    @SetBalancer N Allocator.t unit _ _ no_gateway "test2" None exhausted
      = Some (k8s.SyncStateSuccess, w')
    /\ w_svc w' = svc
    /\ loggedWarning w' = true.
Proof.
  assert (exists k w1,
             client (w_c exhausted) = Some k
             /\ allocateIP "test2" exhausted = Some (Err "NoAddressAvailable", w1))
    as (k & w1 & Hk & Hal).
  { eexists _, _. split; vm_compute; reflexivity. }
  assert (synced (w_c exhausted) = true) as Hs by (vm_compute; reflexivity).
  assert (ParseIP (v1.ClusterIP (v1.Spec (w_svc exhausted))) = Some 16909060%N)
    as Hcl by (vm_compute; reflexivity).
  assert (has_address (w_svc exhausted) = false) as Hhas by (vm_compute; reflexivity).
  destruct (SetBalancer_allocation_error (Gateway0 := no_gateway)
              exhausted "test2" None 16909060%N "NoAddressAvailable" w1 k
              Hs Hcl Hhas Hk Hal)
    as (w' & Hrun & Hsvc & Hev).
  exists w'. split; [exact Hrun |]. split; [exact Hsvc |].
  unfold loggedWarning. rewrite Hev, existsb_app. cbn. apply orb_true_r.
Defined.

Lemma ready_gateway_wired :
  baseURL (w_c ready_gateway) = Some (url.mkURL "http" "egw.test:8080" "")
  /\ groupURL (w_c ready_gateway) = Some "http://egw.test:8080/api/egw/groups/1".
Proof. split; vm_compute; reflexivity. Defined.

Lemma SetBalancer_allocation_success_witness :
  (exists w',
      @SetBalancer N Allocator.t unit _ _ gateway_up "test" None ready_gateway
        = Some (k8s.SyncStateSuccess, w')
      /\ shows_allocation (w_svc w') "default" addr_1_2_3_0)
  /\ (exists w',
        @SetBalancer N Allocator.t unit _ _ gateway_down "test" None ready_gateway
          = Some (k8s.SyncStateError, w')
        /\ shows_allocation (w_svc w') "default" addr_1_2_3_0)
  /\ (exists w',
        @SetBalancer N Allocator.t unit _ _ gateway_down "test" None ready
          = Some (k8s.SyncStateSuccess, w')
        /\ shows_allocation (w_svc w') "default" addr_1_2_3_0).
Proof.
  destruct ready_gateway_wired as [Hb Hg].
  assert (wired ready_gateway) as Hwired by (intros _; rewrite Hg; eauto).
  assert (wired ready) as Hplain by (intros [u Hu]; vm_compute in Hu; discriminate).
  split_and!.
  - exact (SetBalancer_allocation_success (Gateway0 := gateway_up)
             ready_gateway "test" None "default" addr_1_2_3_0
             ready_gateway_allocates Hwired).
  - exact (SetBalancer_allocation_success (Gateway0 := gateway_down)
             ready_gateway "test" None "default" addr_1_2_3_0
             ready_gateway_allocates Hwired).
  - exact (SetBalancer_allocation_success (Gateway0 := gateway_down)
             ready "test" None "default" addr_1_2_3_0 ready_allocates Hplain).
Defined.

(** C1 as first stated fails: with a gateway that refuses the
    announcement, the address is allocated and the outcome is the error
    outcome. *)
Lemma success_after_every_allocation_refuted :
  ~ @success_after_every_allocation N Allocator.t unit _ _ gateway_down
      ready_gateway "test" None.
Proof.
  intros Hclaim.
  destruct (Hclaim "default" addr_1_2_3_0 ready_gateway_allocates) as (w' & Hrun & _).
  vm_compute in Hrun. discriminate Hrun.
Qed.

Lemma ready_gateway_refused :
  @announcement N unit _ gateway_down (url.mkURL "http" "egw.test:8080" "")
    "http://egw.test:8080/api/egw/groups/1" (v1.Name (w_svc ready_gateway))
    (IP_String addr_1_2_3_0)
  = Err "connection refused".
Proof. reflexivity. Defined.

Lemma SetBalancer_announcement_failed_witness :
  exists w' k ev,
    @SetBalancer N Allocator.t unit _ _ gateway_down "test" None ready_gateway
      = Some (k8s.SyncStateError, w')
    /\ w_svc w' = programmed "default" addr_1_2_3_0 (w_svc ready_gateway)
    /\ shows_allocation (w_svc w') "default" addr_1_2_3_0
    /\ client (w_c ready_gateway) = Some k
    /\ client (w_c w')
       = Some ((k ++ [mkEvent Normal "IPAllocated" "Assigned IP %q" [AIP addr_1_2_3_0]])
               ++ [ev])
    /\ ev_kind ev = Warning
    /\ forall w1, allocateIP "test" ready_gateway = Some (Ok ("default", addr_1_2_3_0), w1) ->
                  ips (w_c w') = ips (w_c w1) /\ w_calls w' = w_calls w1.
Proof.
  exact (SetBalancer_announcement_failed (Gateway0 := gateway_down)
           ready_gateway "test" None "default" addr_1_2_3_0 _ _ _
           ready_gateway_allocates (proj1 ready_gateway_wired)
           (proj2 ready_gateway_wired) ready_gateway_refused).
Defined.

Lemma SetBalancer_announcement_failed_shape :
  exists w',
    @SetBalancer N Allocator.t unit _ _ gateway_down "test" None ready_gateway
      = Some (k8s.SyncStateError, w')
    /\ v1.Ingress (v1.LoadBalancer (v1.Status (w_svc w')))
       = [v1.mkLoadBalancerIngress "1.2.3.0" ""].
Proof. eexists. split; [vm_compute; reflexivity | reflexivity]. Qed.

(** C5 as first stated fails: after the refused announcement the status
    of the service shows the allocated address. *)
Lemma address_withheld_after_failed_announcement_refuted :
  ~ @address_withheld_after_failed_announcement N Allocator.t unit _ _ gateway_down
      ready_gateway "test" None.
Proof.
  intros Hclaim.
  destruct (Hclaim "default" addr_1_2_3_0 _ _ _
              ready_gateway_allocates (proj1 ready_gateway_wired)
              (proj2 ready_gateway_wired) ready_gateway_refused)
    as (w' & Hrun & Hwithheld).
  destruct (SetBalancer_announcement_failed_shape) as (w'' & Hrun' & Hing).
  rewrite Hrun' in Hrun. injection Hrun as <-.
  apply (Hwithheld (v1.mkLoadBalancerIngress "1.2.3.0" "")); [| reflexivity].
  rewrite Hing. apply list_elem_of_here.
Qed.

Lemma allocateIP_strategy_order_witness :
  (exists w1,
      allocateIP "test" (booted (pool_config "1.2.3.0/24") svc_explicit)
        = Some (Ok ("default", 16909063%N), w1)
      /\ w_calls w1 = [CallSetPools (purelbv1.Groups (pool_config "1.2.3.0/24"));
                       CallAssign "test" 16909063%N [] ""]
      /\ Allocator.a_addr <$> Allocator.assignments (ips (w_c w1)) !! "test"
         = Some 16909063%N)
  /\ allocateIP "test" (booted (pool_config "1.2.3.0/24") Cases.svc_bad_IP)
     = Some (Err (invalid_loadBalancerIP "1.2.3"),
             booted (pool_config "1.2.3.0/24") Cases.svc_bad_IP)
  /\ (exists w1,
        allocateIP "test" (booted (pool_config "1.2.3.0/24") svc_pool)
          = Some (Ok ("default", addr_1_2_3_0), w1)
        /\ w_calls w1 = [CallSetPools (purelbv1.Groups (pool_config "1.2.3.0/24"));
                         CallAllocateFromPool "test" "default" [] ""]
        /\ Allocator.a_addr <$> Allocator.assignments (ips (w_c w1)) !! "test"
           = Some addr_1_2_3_0)
  /\ (exists w1,
        allocateIP "test" ready = Some (Ok ("default", addr_1_2_3_0), w1)
        /\ w_calls w1 = [CallSetPools (purelbv1.Groups (pool_config "1.2.3.0/24"));
                         CallAllocate "test" [] ""]
        /\ Allocator.a_addr <$> Allocator.assignments (ips (w_c w1)) !! "test"
           = Some addr_1_2_3_0).
Proof.
  split_and!.
  - assert (v1.LoadBalancerIP (v1.Spec svc_explicit) <> "") as Hne by discriminate.
    assert (ParseIP (v1.LoadBalancerIP (v1.Spec svc_explicit)) = Some 16909063%N)
      as Hip by (vm_compute; reflexivity).
    eexists. split; [| split].
    + rewrite (proj1 (allocateIP_strategy_order
                        (booted (pool_config "1.2.3.0/24") svc_explicit) "test")
                 16909063%N Hne Hip).
      cbn zeta. reflexivity.
    + vm_compute. reflexivity.
    + vm_compute. reflexivity.
  - assert (v1.LoadBalancerIP (v1.Spec Cases.svc_bad_IP) <> "") as Hne by discriminate.
    assert (ParseIP (IP := N) (v1.LoadBalancerIP (v1.Spec Cases.svc_bad_IP)) = None)
      as Hip by (vm_compute; reflexivity).
    exact (proj1 (proj2 (allocateIP_strategy_order
                           (booted (pool_config "1.2.3.0/24") Cases.svc_bad_IP) "test"))
             Hne Hip).
  - assert (map_index (v1.Annotations svc_pool) desiredPoolAnnotation <> "")
      as Hne by (vm_compute; discriminate).
    eexists. split; [| split].
    + rewrite (proj1 (proj2 (proj2 (allocateIP_strategy_order
                                      (booted (pool_config "1.2.3.0/24") svc_pool) "test")))
                 eq_refl Hne).
      cbn zeta. reflexivity.
    + vm_compute. reflexivity.
    + vm_compute. reflexivity.
  - eexists. split; [| split].
    + rewrite (proj2 (proj2 (proj2 (allocateIP_strategy_order ready "test")))
                 eq_refl eq_refl).
      cbn zeta. reflexivity.
    + vm_compute. reflexivity.
    + vm_compute. reflexivity.
Defined.

(** C7 as first stated fails: on a synced controller, a service without
    an address whose load-balancer IP is set to a text that is no address
    gets no call of [Assign], and none of the other strategies either. *)
Lemma strategy_by_request_refuted :
  ~ strategy_by_request (booted (pool_config "1.2.3.0/24") Cases.svc_bad_IP) "test".
Proof.
  intros Hstated.
  destruct Hstated as (Hexplicit & _); [vm_compute; reflexivity .. |].
  destruct Hexplicit as (ip & r & w1 & Hrun & Hcalls); [discriminate |].
  rewrite allocateIP_invalid in Hrun;
    [| discriminate | vm_compute; reflexivity].
  injection Hrun as _ <-.
  apply (f_equal length) in Hcalls. rewrite length_app in Hcalls.
  cbn in Hcalls. lia.
Qed.

Lemma admits_spec_witness :
  Allocator.admits [] [mkPort "TCP" 80] "" = true
  /\ Allocator.admits [held_http] [mkPort "TCP" 443] "team-a" = true
  /\ Allocator.admits [held_http] [mkPort "TCP" 443] "team-b" = false
  /\ Allocator.admits [held_http] [mkPort "TCP" 80] "team-a" = false
  /\ Allocator.admits [held_http] [] "team-a" = false.
Proof.
  assert ([held_http] <> []) as Hne by discriminate.
  split_and!.
  - exact (proj1 (admits_spec [] [mkPort "TCP" 80] "") eq_refl).
  - apply (proj1 (proj2 (admits_spec [held_http] [mkPort "TCP" 443] "team-a")) Hne).
    split_and!.
    + discriminate.
    + intros a Ha. apply list_elem_of_singleton in Ha as ->. reflexivity.
    + intros a Ha. apply list_elem_of_singleton in Ha as ->.
      intros [Hc | [Hc | (x & Hx & Hy)]]; try discriminate.
      apply list_elem_of_singleton in Hx as ->.
      apply list_elem_of_singleton in Hy. discriminate.
  - reflexivity.
  - reflexivity.
  - reflexivity.
Defined.
End Witnesses.

(** ** The package's tests, run on the embedding *)
Section Tests.
Import Scenario.
#[local] Existing Instance no_gateway.

(** [TestControllerConfig] *)
Example TestControllerConfig :
  let test : @M N Allocator.t _ :=
    r1 <- SetBalancer "test" None ;;
    warned1 <- (fun w => Some (loggedWarning w, w)) ;;
    r2 <- SetConfig (Some (purelbv1.mkConfig [])) ;;
    r3 <- SetBalancer "test" None ;;
    svc3 <- get_svc ;;
    r4 <- SetConfig (Some (pool_config "1.2.3.0/24")) ;;
    r5 <- SetBalancer "test" None ;;
    svc5 <- get_svc ;;
    warned5 <- (fun w => Some (loggedWarning w, w)) ;;
    MarkSynced ;;
    r6 <- SetBalancer "test" None ;;
    svc6 <- get_svc ;;
    r7 <- SetConfig None ;;
    ret ([r1; r2; r3; r4; r5; r6; r7], [warned1; warned5], [svc3; svc5; svc6]) in
  fst <$> test (start svc) =
    Some ([k8s.SyncStateError; k8s.SyncStateReprocessAll; k8s.SyncStateError;
           k8s.SyncStateReprocessAll; k8s.SyncStateError; k8s.SyncStateSuccess;
           k8s.SyncStateError],
          [false; false],
          [svc; svc;
           v1.mkService "" (Some (<[poolAnnotation := "default"]>
                                    (<[brandAnnotation := brand]> ∅)))
                        (v1.Spec svc)
                        (v1.mkServiceStatus
                           (v1.mkLoadBalancerStatus
                              [v1.mkLoadBalancerIngress "1.2.3.0" ""]))]).
Proof. vm_compute. reflexivity. Qed.

(** [TestDeleteRecyclesIP] *)
Example TestDeleteRecyclesIP :
  let ingress : @M N Allocator.t _ :=
    s <- get_svc ;; ret (map v1.IP (v1.Ingress (v1.LoadBalancer (v1.Status s)))) in
  let test : @M N Allocator.t _ :=
    r0 <- SetConfig (Some (pool_config "1.2.3.0/32")) ;;
    MarkSynced ;;
    with_svc svc ;;
    r1 <- SetBalancer "test" None ;;
    ip1 <- ingress ;;
    with_svc svc ;;
    r2 <- SetBalancer "test2" None ;;
    ip2 <- ingress ;;
    warned2 <- (fun w => Some (loggedWarning w, w)) ;;
    r3 <- DeleteBalancer "test" ;;
    r4 <- SetBalancer "test2" None ;;
    ip4 <- ingress ;;
    ret ([r0; r1; r2; r3; r4], [ip1; ip2; ip4], warned2) in
  fst <$> test (start svc) =
    Some ([k8s.SyncStateReprocessAll; k8s.SyncStateSuccess; k8s.SyncStateSuccess;
           k8s.SyncStateReprocessAll; k8s.SyncStateSuccess],
          [["1.2.3.0"]; []; ["1.2.3.0"]],
          true).
Proof. vm_compute. reflexivity. Qed.
End Tests.

(** * Further properties of the handlers *)

(** ** [SetConfig] and the gateway settings *)
Section ConfigProperties.
Context {IP Alloc : Type}.
Context `{!NetLib IP, !AllocatorAPI IP Alloc}.
Implicit Types (w : @World IP Alloc) (c : @controller IP Alloc).

(** The loop over groups whose gateway URLs all parse. *)
Lemma SetConfig_groups_parsed groups w :
  Forall parses (gateway_URLs groups) ->
  exists c',
    SetConfig_groups groups w = Some (None, mkWorld c' (w_svc w) (w_calls w))
    /\ groupURL c' = group_after (gateway_URLs groups) (groupURL (w_c w))
    /\ baseURL c' = base_after (gateway_URLs groups) (baseURL (w_c w))
    /\ synced c' = synced (w_c w)
    /\ client c' = client (w_c w)
    /\ ips c' = ips (w_c w)
    /\ logger c' = logger (w_c w).
Proof.
  revert w. induction groups as [|group rest IH]; intros w Hall.
  - exists (w_c w). destruct w. cbn. split_and!; reflexivity.
  - unfold gateway_URLs in Hall. cbn [omap list_omap] in Hall.
    cbn [SetConfig_groups].
    destruct (purelbv1.EGW (purelbv1.Spec group)) as [egw|] eqn:Hegw;
      cbn [fmap option_fmap option_map] in Hall.
    + apply Forall_cons in Hall as [[u Hu] Hall].
      unfold bind, modify_c, get_c. cbn. rewrite Hu. cbn.
      destruct (IH (mkWorld (set_baseURL (Some (url.set_Path "" u))
                               (set_groupURL (Some (purelbv1.URL egw)) (w_c w)))
                            (w_svc w) (w_calls w)) Hall)
        as (c' & Hrun & Hg & Hb & Hs & Hk & Hi & Hl).
      exists c'. cbn in *. split; [exact Hrun |].
      unfold gateway_URLs. cbn [omap list_omap]. rewrite Hegw.
      cbn [fmap option_fmap option_map].
      unfold group_after, base_after in *. rewrite last_cons.
      fold (gateway_URLs rest).
      destruct (last (gateway_URLs rest)) as [g|]; [split_and!; assumption |].
      rewrite Hu. split_and!; assumption.
    + destruct (IH w Hall) as (c' & Hrun & Hrest).
      exists c'. split; [exact Hrun |].
      unfold gateway_URLs. cbn [omap list_omap]. rewrite Hegw. exact Hrest.
Qed.

(** The loop over groups of which one has a gateway URL that does not
    parse, those before it parsing. *)
Lemma SetConfig_groups_unparsed groups w pre bad post err :
  gateway_URLs groups = pre ++ bad :: post ->
  Forall parses pre ->
  url_Parse bad = Err err ->
  exists c',
    SetConfig_groups groups w
      = Some (Some k8s.SyncStateError, mkWorld c' (w_svc w) (w_calls w))
    /\ groupURL c' = Some bad
    /\ baseURL c' = base_after pre (baseURL (w_c w))
    /\ synced c' = synced (w_c w)
    /\ client c' = client (w_c w)
    /\ ips c' = ips (w_c w)
    /\ logger c' = logger (w_c w) ++ [[AStr "op"; AStr "setConfig"; AStr "error"; AErr err]].
Proof.
  revert w pre. induction groups as [|group rest IH]; intros w pre Hurls Hpre Hbad.
  - destruct pre; discriminate Hurls.
  - unfold gateway_URLs in Hurls. cbn [omap list_omap] in Hurls.
    cbn [SetConfig_groups].
    destruct (purelbv1.EGW (purelbv1.Spec group)) as [egw|] eqn:Hegw;
      cbn [fmap option_fmap option_map] in Hurls.
    + destruct pre as [|p pre].
      * injection Hurls as Hurl _. rewrite <- Hurl in Hbad.
        unfold bind, modify_c, get_c, logger_Log. cbn. rewrite Hbad. cbn.
        eexists. split; [reflexivity |]. cbn. rewrite Hurl.
        split_and!; reflexivity.
      * injection Hurls as Hurl Hurls.
        apply Forall_cons in Hpre as [[u Hu] Hpre]. subst p.
        unfold bind, modify_c, get_c. cbn. rewrite Hu. cbn.
        destruct (IH (mkWorld (set_baseURL (Some (url.set_Path "" u))
                                 (set_groupURL (Some (purelbv1.URL egw)) (w_c w)))
                              (w_svc w) (w_calls w)) pre Hurls Hpre Hbad)
          as (c' & Hrun & Hg & Hb & Hs & Hk & Hi & Hl).
        exists c'. cbn in *. split; [exact Hrun |].
        unfold base_after in *. rewrite last_cons.
        destruct (last pre) as [g|]; [split_and!; assumption |].
        rewrite Hu. split_and!; assumption.
    + exact (IH w pre Hurls Hpre Hbad).
Qed.

(** The loop always returns; it touches the gateway settings and the log
    only. *)
Lemma SetConfig_groups_returns groups w :
  exists r c' lines,
    SetConfig_groups groups w = Some (r, mkWorld c' (w_svc w) (w_calls w))
    /\ (r = None \/ r = Some k8s.SyncStateError)
    /\ synced c' = synced (w_c w)
    /\ client c' = client (w_c w)
    /\ ips c' = ips (w_c w)
    /\ logger c' = logger (w_c w) ++ lines.
Proof.
  revert w. induction groups as [|group rest IH]; intros w.
  - exists None, (w_c w), []. destruct w. cbn. rewrite app_nil_r.
    split_and!; auto.
  - cbn [SetConfig_groups].
    destruct (purelbv1.EGW (purelbv1.Spec group)) as [egw|]; [| apply IH].
    unfold bind, modify_c, get_c, logger_Log. cbn.
    destruct (url_Parse (purelbv1.URL egw)) as [u|err]; cbn.
    + destruct (IH (mkWorld (set_baseURL (Some (url.set_Path "" u))
                               (set_groupURL (Some (purelbv1.URL egw)) (w_c w)))
                            (w_svc w) (w_calls w)))
        as (r & c' & lines & Hrun & Hr & Hs & Hk & Hi & Hl).
      exists r, c', lines. cbn in *. split_and!; assumption.
    + eexists _, _, _. split; [reflexivity |]. cbn. split_and!; auto.
Qed.

(** What [SetConfig] does with a configuration, in terms of the loop. *)
Lemma SetConfig_accepted cfg w :
  fst (SetPools (ips (w_c w)) (purelbv1.Groups cfg)) = None ->
  SetConfig (Some cfg) w =
    (early <- SetConfig_groups (purelbv1.Groups cfg) ;;
     st <- match early with
           | Some st => ret st
           | None => ret k8s.SyncStateReprocessAll
           end ;;
     logger_Log [AStr "event"; AStr "configUpdated"] ;;
     ret st)
      (mkWorld (set_baseURL None
                  (set_groupURL None
                     (set_ips (snd (SetPools (ips (w_c w)) (purelbv1.Groups cfg))) (w_c w))))
               (w_svc w) (w_calls w ++ [CallSetPools (purelbv1.Groups cfg)])).
Proof.
  intros Hok. unfold SetConfig, SetConfig_body, ips_SetPools.
  unfold bind at 1. unfold bind at 1. rewrite ips_call_run, Hok.
  unfold bind, modify_c, after_call. cbn.
  destruct (SetConfig_groups _ _) as [[[st|] w1]|]; reflexivity.
Qed.

Lemma SetConfig_pools_rejected_run cfg w err :
  fst (SetPools (ips (w_c w)) (purelbv1.Groups cfg)) = Some err ->
  exists w',
    SetConfig (Some cfg) w = Some (k8s.SyncStateError, w')
    /\ logger (w_c w')
       = logger (w_c w) ++ [[AStr "op"; AStr "setConfig"; AStr "error"; AErr err]]
                        ++ [[AStr "event"; AStr "configUpdated"]]
    /\ synced (w_c w') = synced (w_c w)
    /\ client (w_c w') = client (w_c w)
    /\ w_svc w' = w_svc w.
Proof.
  intros Herr. unfold SetConfig, SetConfig_body, ips_SetPools.
  unfold bind at 1. unfold bind at 1. rewrite ips_call_run, Herr.
  eexists. split; [reflexivity |]. cbn. rewrite <- app_assoc.
  split_and!; reflexivity.
Qed.

(** X1.  When [SetPools] rejects the configuration, [SetConfig] returns
    the error outcome and leaves the gateway settings, the [synced] flag,
    the client and the service as they were; the allocator is as
    [SetPools] left it. *)
Theorem SetConfig_pools_rejected cfg w err :
  fst (SetPools (ips (w_c w)) (purelbv1.Groups cfg)) = Some err ->
  exists w',
    SetConfig (Some cfg) w = Some (k8s.SyncStateError, w')
    /\ ips (w_c w') = snd (SetPools (ips (w_c w)) (purelbv1.Groups cfg))
    /\ w_calls w' = w_calls w ++ [CallSetPools (purelbv1.Groups cfg)]
    /\ baseURL (w_c w') = baseURL (w_c w)
    /\ groupURL (w_c w') = groupURL (w_c w)
    /\ synced (w_c w') = synced (w_c w)
    /\ client (w_c w') = client (w_c w)
    /\ w_svc w' = w_svc w
    /\ logger (w_c w')
       = logger (w_c w) ++ [[AStr "op"; AStr "setConfig"; AStr "error"; AErr err];
                            [AStr "event"; AStr "configUpdated"]].
Proof.
  intros Herr. unfold SetConfig, SetConfig_body, ips_SetPools.
  unfold bind at 1. unfold bind at 1. rewrite ips_call_run, Herr.
  eexists. split; [reflexivity |]. cbn. rewrite <- app_assoc.
  split_and!; reflexivity.
Qed.

(** X2.  When [SetPools] accepts the configuration and every gateway URL
    in it parses, [SetConfig] returns reprocess-all; the group URL is the
    last gateway URL of the configuration and the base URL is its parse
    with the path cleared; with no gateway URL in the configuration both
    are nil, whatever they were before. *)
Theorem SetConfig_gateway_settings cfg w :
  fst (SetPools (ips (w_c w)) (purelbv1.Groups cfg)) = None ->
  Forall parses (gateway_URLs (purelbv1.Groups cfg)) ->
  exists w',
    SetConfig (Some cfg) w = Some (k8s.SyncStateReprocessAll, w')
    /\ groupURL (w_c w') = last (gateway_URLs (purelbv1.Groups cfg))
    /\ baseURL (w_c w') = base_after (gateway_URLs (purelbv1.Groups cfg)) None
    /\ default "" (url.Path <$> baseURL (w_c w')) = ""
    /\ ips (w_c w') = snd (SetPools (ips (w_c w)) (purelbv1.Groups cfg))
    /\ w_calls w' = w_calls w ++ [CallSetPools (purelbv1.Groups cfg)].
Proof.
  intros Hok Hall. rewrite (SetConfig_accepted _ _ Hok).
  match goal with |- context [bind _ _ ?w0] => set (w1 := w0) end.
  destruct (SetConfig_groups_parsed (purelbv1.Groups cfg) w1 Hall)
    as (c' & Hrun & Hg & Hb & Hs & Hk & Hi & Hl).
  unfold bind at 1. rewrite Hrun.
  eexists. split; [reflexivity |]. cbn.
  rewrite Hg, Hb, Hi. cbn.
  unfold group_after, base_after.
  destruct (last (gateway_URLs (purelbv1.Groups cfg))) as [g|];
    [destruct (url_Parse g) |]; split_and!; reflexivity.
Qed.

(** X3.  When [SetPools] accepts the configuration and a gateway URL in
    it does not parse, those before it parsing, [SetConfig] returns the
    error outcome with the configuration half applied: the pools are
    replaced, the group URL is the URL that did not parse, and the base
    URL is that of the gateway URL before it, or nil. *)
Theorem SetConfig_gateway_URL_rejected cfg w pre bad post err :
  fst (SetPools (ips (w_c w)) (purelbv1.Groups cfg)) = None ->
  gateway_URLs (purelbv1.Groups cfg) = pre ++ bad :: post ->
  Forall parses pre ->
  url_Parse bad = Err err ->
  exists w',
    SetConfig (Some cfg) w = Some (k8s.SyncStateError, w')
    /\ ips (w_c w') = snd (SetPools (ips (w_c w)) (purelbv1.Groups cfg))
    /\ w_calls w' = w_calls w ++ [CallSetPools (purelbv1.Groups cfg)]
    /\ groupURL (w_c w') = Some bad
    /\ baseURL (w_c w') = base_after pre None.
Proof.
  intros Hok Hurls Hpre Hbad. rewrite (SetConfig_accepted _ _ Hok).
  match goal with |- context [bind _ _ ?w0] => set (w1 := w0) end.
  destruct (SetConfig_groups_unparsed (purelbv1.Groups cfg) w1 pre bad post err
              Hurls Hpre Hbad)
    as (c' & Hrun & Hg & Hb & Hs & Hk & Hi & Hl).
  unfold bind at 1. rewrite Hrun.
  eexists. split; [reflexivity |]. cbn.
  rewrite Hg, Hb, Hi. split_and!; reflexivity.
Qed.

(** X4.  [SetConfig] returns for every configuration, never with the
    success outcome, and its last log line is the deferred
    [configUpdated]; the [synced] flag, the client and the service are as
    they were. *)
Theorem SetConfig_returns cfg w :
  exists st w' lines,
    SetConfig cfg w = Some (st, w')
    /\ (st = k8s.SyncStateError \/ st = k8s.SyncStateReprocessAll)
    /\ logger (w_c w')
       = logger (w_c w) ++ lines ++ [[AStr "event"; AStr "configUpdated"]]
    /\ synced (w_c w') = synced (w_c w)
    /\ client (w_c w') = client (w_c w)
    /\ w_svc w' = w_svc w.
Proof.
  destruct cfg as [cfg|].
  - destruct (fst (SetPools (ips (w_c w)) (purelbv1.Groups cfg))) as [err|] eqn:Hpools.
    + destruct (SetConfig_pools_rejected_run cfg w err Hpools) as (w' & Hrun & Hrest).
      exists k8s.SyncStateError, w', [[AStr "op"; AStr "setConfig"; AStr "error"; AErr err]].
      split; [exact Hrun |]. split; [auto |]. exact Hrest.
    + rewrite (SetConfig_accepted _ _ Hpools).
      match goal with |- context [bind _ _ ?w0] => set (w1 := w0) end.
      destruct (SetConfig_groups_returns (purelbv1.Groups cfg) w1)
        as (r & c' & lines & Hrun & Hr & Hs & Hk & Hi & Hl).
      unfold bind at 1. rewrite Hrun.
      destruct Hr as [-> | ->];
        (eexists _, _, lines; split; [reflexivity |]; cbn;
         rewrite Hl, Hs, Hk, <- app_assoc; split_and!; auto).
  - eexists _, _, [_]. split; [reflexivity |]. cbn. rewrite <- app_assoc.
    split_and!; auto.
Qed.
End ConfigProperties.

(** ** More frames *)

#[local] Instance same_allocator_preorder {IP Alloc : Type} :
  PreOrder (@same_allocator IP Alloc).
Proof.
  split; unfold same_allocator; [intros w; split; reflexivity |].
  intros w1 w2 w3 [? ?] [? ?]. split; congruence.
Qed.

#[local] Instance same_request_svc_preorder : PreOrder same_request_svc.
Proof.
  split; unfold same_request_svc.
  - intros svc. split_and!; reflexivity.
  - intros s1 s2 s3 (Hn1 & Hs1 & Ha1) (Hn2 & Hs2 & Ha2). split_and!; [congruence.. |].
    intros k Hk. rewrite (Ha2 k Hk). exact (Ha1 k Hk).
Qed.

#[local] Instance same_request_preorder {IP Alloc : Type} :
  PreOrder (@same_request IP Alloc).
Proof.
  split; unfold same_request.
  - intros w. reflexivity.
  - intros w1 w2 w3 H1 H2. etransitivity; eassumption.
Qed.

(** A step that only the framed fields could tell from the identity. *)
Ltac footprint_prim :=
  let w := fresh "w" in
  intros w ? ? [= _ <-];
  unfold same_allocator, same_request, same_request_svc; cbn;
  repeat match goal with
         | |- context [match ?x with _ => _ end] => destruct x; cbn
         end;
  auto.

Ltac footprint_step :=
  match goal with
  | |- keeps (bind _ _) _ => apply (keeps_bind _); [| intros ?]
  | |- keeps (ret _) _ => apply (keeps_ret _)
  | |- keeps panic _ => apply keeps_panic
  | |- keeps get_c _ => apply (keeps_get_c _)
  | |- keeps get_svc _ => apply (keeps_get_svc _)
  | |- keeps (deref _) _ => apply (keeps_deref _)
  | |- keeps (modify_c _) _ => footprint_prim
  | |- keeps (modify_svc _) _ => footprint_prim
  | |- keeps (record_call _) _ => footprint_prim
  | |- keeps (let '(_, _) := ?x in _) _ => destruct x
  | |- keeps (match ?x with _ => _ end) _ => destruct x
  | |- keeps (if ?b then _ else _) _ => destruct b
  end.

Section Footprint.
Context {IP Alloc EGW : Type}.
Context `{!NetLib IP, !AllocatorAPI IP Alloc, !Gateway EGW}.
Implicit Types (w : @World IP Alloc) (c : @controller IP Alloc).

Lemma announce_allocator base :
  keeps (Alloc := Alloc) (announce base) same_allocator.
Proof.
  unfold announce, client_Errorf, publish, svc_set_Annotation, logger_Log.
  repeat footprint_step.
Qed.

Lemma svc_set_Annotation_request k v :
  k ∈ written_annotations ->
  keeps (IP := IP) (Alloc := Alloc) (svc_set_Annotation k v) same_request.
Proof.
  intros Hk w a w'. unfold svc_set_Annotation, bind, get_svc, v1.set_Annotation.
  destruct (v1.Annotations (w_svc w)) as [m|] eqn:Hm; cbn; [|discriminate].
  intros [= _ <-]. unfold same_request, same_request_svc. cbn. rewrite Hm.
  split_and!; [reflexivity.. |].
  intros k' Hk'. cbn. apply lookup_insert_ne. intros ->. exact (Hk' Hk).
Qed.

Lemma init_Annotations_request :
  keeps (IP := IP) (Alloc := Alloc) (modify_svc v1.init_Annotations) same_request.
Proof.
  intros w a w' [= _ <-]. unfold same_request, same_request_svc, v1.init_Annotations.
  cbn. destruct (v1.Annotations (w_svc w)) eqn:Hm; cbn; rewrite ?Hm; auto.
Qed.

Lemma SetBalancer_request name eps : keeps (SetBalancer name eps) same_request.
Proof.
  unfold SetBalancer, allocateIP, announce, client_Errorf, client_Infof, publish,
    logger_Log, ips_Assign, ips_AllocateFromPool, ips_Allocate, ips_call.
  repeat first
    [ apply svc_set_Annotation_request; unfold written_annotations; set_solver
    | apply init_Annotations_request
    | footprint_step ].
Qed.
End Footprint.

(** ** [SetBalancer]: what it returns, what it calls, what it leaves *)
Section BalancerProperties.
Context {IP Alloc EGW : Type}.
Context `{!NetLib IP, !AllocatorAPI IP Alloc, !Gateway EGW}.
Implicit Types (w : @World IP Alloc) (c : @controller IP Alloc).

Lemma map_index_default (ann : option (gmap string string)) k :
  map_index ann k = default "" (default ∅ ann !! k).
Proof. destruct ann; cbn; [reflexivity | rewrite lookup_empty; reflexivity]. Qed.

(** The annotations that [allocateIP] reads are not among those that
    [SetBalancer] writes. *)
Lemma request_annotations_not_written :
  (sharingAnnotation ∉ written_annotations)
  /\ (desiredPoolAnnotation ∉ written_annotations).
Proof.
  unfold written_annotations.
  split; intros H; rewrite !elem_of_cons, elem_of_nil in H;
    destruct H as [H|[H|[H|[H|[H|[]]]]]]; discriminate H.
Qed.

(** X8.  [SetBalancer] leaves the name and the spec of the service and
    every annotation but the five it writes as they were, so the service
    asks for the same ports, sharing key and pool afterwards; and it
    leaves the [synced] flag and the gateway settings of the controller
    as they were. *)
Theorem SetBalancer_footprint w name eps st w' :
  SetBalancer name eps w = Some (st, w') ->
  v1.Name (w_svc w') = v1.Name (w_svc w)
  /\ v1.Spec (w_svc w') = v1.Spec (w_svc w)
  /\ (forall k, k ∉ written_annotations ->
                default ∅ (v1.Annotations (w_svc w')) !! k
                = default ∅ (v1.Annotations (w_svc w)) !! k)
  /\ Ports (w_svc w') = Ports (w_svc w)
  /\ SharingKey (w_svc w') = SharingKey (w_svc w)
  /\ map_index (v1.Annotations (w_svc w')) desiredPoolAnnotation
     = map_index (v1.Annotations (w_svc w)) desiredPoolAnnotation
  /\ synced (w_c w') = synced (w_c w)
  /\ baseURL (w_c w') = baseURL (w_c w)
  /\ groupURL (w_c w') = groupURL (w_c w).
Proof.
  intros Hrun.
  destruct (SetBalancer_request _ _ _ _ _ Hrun) as (Hname & Hspec & Hann).
  destruct (SetBalancer_gateway _ _ _ _ _ Hrun) as [Hb Hg].
  pose proof (SetBalancer_synced _ _ _ _ _ Hrun) as Hs.
  split_and!; try assumption.
  - unfold Ports. rewrite Hspec. reflexivity.
  - unfold SharingKey. rewrite !map_index_default, Hann; [reflexivity |].
    apply (proj1 request_annotations_not_written).
  - rewrite !map_index_default, Hann; [reflexivity |].
    apply (proj2 request_annotations_not_written).
Qed.

(** The calls that [allocateIP] makes. *)
Lemma allocateIP_calls w key r w1 :
  allocateIP key w = Some (r, w1) ->
  w_svc w1 = w_svc w
  /\ ((w_calls w1 = w_calls w /\ ips (w_c w1) = ips (w_c w)
       /\ exists err, r = Err err)
      \/ exists call,
           allocation_for key call
           /\ w_calls w1 = w_calls w ++ [call]
           /\ ips (w_c w1) = performed (ips (w_c w)) call).
Proof.
  destruct (String.eqb_spec (v1.LoadBalancerIP (v1.Spec (w_svc w))) "") as [He|Hne].
  - destruct (String.eqb_spec (map_index (v1.Annotations (w_svc w)) desiredPoolAnnotation) "")
      as [Hd|Hd].
    + rewrite (allocateIP_any _ _ He Hd). cbn zeta. intros [= _ <-].
      split; [reflexivity |]. right. eexists. split; [| split; reflexivity]. reflexivity.
    + rewrite (allocateIP_pool _ _ He Hd). cbn zeta. intros [= _ <-].
      split; [reflexivity |]. right. eexists. split; [| split; reflexivity]. reflexivity.
  - destruct (ParseIP (v1.LoadBalancerIP (v1.Spec (w_svc w)))) as [ip|] eqn:Hip.
    + rewrite (allocateIP_explicit _ _ _ Hne Hip). cbn zeta. intros [= _ <-].
      split; [reflexivity |]. right. eexists. split; [| split; reflexivity]. reflexivity.
    + rewrite (allocateIP_invalid _ _ Hne Hip). intros [= <- <-].
      split; [reflexivity |]. left. eauto.
Qed.

(** How [SetBalancer] goes on after an allocation: the allocator and the
    record of calls stay as [allocateIP] left them. *)
Lemma SetBalancer_allocation_path w name eps clusterIP st w' :
  synced (w_c w) = true ->
  ParseIP (v1.ClusterIP (v1.Spec (w_svc w))) = Some clusterIP ->
  has_address (w_svc w) = false ->
  SetBalancer name eps w = Some (st, w') ->
  exists r w1,
    allocateIP name w = Some (r, w1)
    /\ same_allocator w1 w'
    /\ is_Some (client (w_c w1)).
Proof.
  intros Hs Hcl Hhas Hrun.
  rewrite (SetBalancer_allocateIP _ _ _ _ Hs Hcl Hhas) in Hrun.
  unfold bind at 1 in Hrun.
  destruct (allocateIP name w) as [[r w1]|] eqn:Hal; [|discriminate].
  exists r, w1. split; [reflexivity |].
  split.
  - match type of Hrun with
    | ?K w1 = _ =>
        assert (keeps K same_allocator) as Hkeep; [| exact (Hkeep _ _ _ Hrun)]
    end.
    destruct r as [[pool lbIP]|err];
      unfold client_Errorf, client_Infof, publish, svc_set_Annotation, logger_Log;
      repeat first [apply announce_allocator | footprint_step].
  - destruct (client (w_c w1)) as [k|] eqn:Hk; [eauto |]. exfalso.
    revert Hrun.
    unfold client_Errorf, client_Infof, publish, logger_Log, bind, modify_c, get_c.
    destruct r as [[pool lbIP]|err]; cbn; rewrite Hk; discriminate.
Qed.

(** X9.  A [SetBalancer] that returns has called the allocator not at
    all, or once: [Assign], [AllocateFromPool] or [Allocate] for the key it
    was given, never [SetPools] or [Unassign]; the allocator is as that
    call left it. *)
Theorem SetBalancer_allocator_calls w name eps st w' :
  SetBalancer name eps w = Some (st, w') ->
  (w_calls w' = w_calls w /\ ips (w_c w') = ips (w_c w))
  \/ exists call,
       allocation_for name call
       /\ w_calls w' = w_calls w ++ [call]
       /\ ips (w_c w') = performed (ips (w_c w)) call.
Proof.
  intros Hrun.
  destruct (synced (w_c w)) eqn:Hs.
  - destruct (ParseIP (v1.ClusterIP (v1.Spec (w_svc w)))) as [clusterIP|] eqn:Hcl.
    + destruct (has_address (w_svc w)) eqn:Hhas.
      * rewrite (SetBalancer_ipAlreadySet _ _ _ _ Hs Hcl Hhas) in Hrun.
        injection Hrun as _ <-. left. split; reflexivity.
      * destruct (SetBalancer_allocation_path _ _ _ _ _ _ Hs Hcl Hhas Hrun)
          as (r & w1 & Hal & [Hips Hcalls] & _).
        destruct (allocateIP_calls _ _ _ _ Hal) as (_ & [(Hc & Hi & _) | (call & Hfor & Hc & Hi)]).
        -- left. split; congruence.
        -- right. exists call. split; [exact Hfor |]. split; congruence.
    + rewrite (SetBalancer_noClusterIP _ _ _ Hs Hcl) in Hrun.
      injection Hrun as _ <-. left. split; reflexivity.
  - rewrite (SetBalancer_unsynced _ _ _ Hs) in Hrun.
    injection Hrun as _ <-. left. split; reflexivity.
Qed.

Lemma yields_ret {A} (a : A) (P : A -> Prop) :
  P a -> yields (IP := IP) (Alloc := Alloc) (ret a) P.
Proof. intros Ha w a' w' [= <- _]. exact Ha. Qed.

Lemma yields_bind {A B} (m : @M IP Alloc A) (k : A -> @M IP Alloc B) (P : B -> Prop) :
  (forall a, yields (k a) P) -> yields (bind m k) P.
Proof.
  intros Hk w b w'. unfold bind.
  destruct (m w) as [[a w1]|]; [apply Hk | discriminate].
Qed.

Lemma announce_outcome base :
  yields (Alloc := Alloc) (announce base) success_or_error.
Proof.
  unfold announce, success_or_error.
  repeat match goal with
         | |- yields (bind _ _) _ => apply yields_bind; intros ?
         | |- yields (ret _) _ => apply yields_ret; auto
         | |- yields (match ?x with _ => _ end) _ => destruct x
         end.
Qed.

(** X12.  A [SetBalancer] that returns gives the error outcome when the
    controller is not synced, the success outcome when it is synced and
    no gateway is configured -- also when the allocation failed -- and
    one of the two when a gateway is configured; it never asks for
    everything to be reprocessed. *)
Theorem SetBalancer_outcome w name eps st w' :
  SetBalancer name eps w = Some (st, w') ->
  match synced (w_c w), baseURL (w_c w) with
  | false, _ => st = k8s.SyncStateError
  | true, None => st = k8s.SyncStateSuccess
  | true, Some _ => success_or_error st
  end.
Proof.
  intros Hrun.
  assert (st = k8s.SyncStateSuccess ->
          match baseURL (w_c w) with
          | Some _ => success_or_error st
          | None => st = k8s.SyncStateSuccess
          end) as Hok.
  { intros ->. destruct (baseURL (w_c w)); [left |]; reflexivity. }
  destruct (synced (w_c w)) eqn:Hs.
  - destruct (ParseIP (v1.ClusterIP (v1.Spec (w_svc w)))) as [clusterIP|] eqn:Hcl.
    + destruct (has_address (w_svc w)) eqn:Hhas.
      * rewrite (SetBalancer_ipAlreadySet _ _ _ _ Hs Hcl Hhas) in Hrun.
        injection Hrun as <- _. apply Hok. reflexivity.
      * destruct (SetBalancer_allocation_path _ _ _ _ _ _ Hs Hcl Hhas Hrun)
          as (r & w1 & Hal & _ & [k Hk]).
        destruct (allocateIP_frame _ _ _ _ Hal) as (_ & _ & _ & Hb & _).
        destruct r as [[pool lbIP]|err].
        -- rewrite (SetBalancer_allocated _ _ _ _ _ _ _ _ Hs Hcl Hhas Hal Hk), Hb in Hrun.
           destruct (baseURL (w_c w)) as [base|].
           ++ exact (announce_outcome base _ _ _ Hrun).
           ++ injection Hrun as <- _. reflexivity.
        -- rewrite (SetBalancer_allocation_failed _ _ _ _ _ _ _ Hs Hcl Hhas Hal Hk) in Hrun.
           injection Hrun as <- _. apply Hok. reflexivity.
    + rewrite (SetBalancer_noClusterIP _ _ _ Hs Hcl) in Hrun.
      injection Hrun as <- _. apply Hok. reflexivity.
  - rewrite (SetBalancer_unsynced _ _ _ Hs) in Hrun.
    injection Hrun as <- _. reflexivity.
Qed.

(** With the client bound and the gateway settings wired, [SetBalancer]
    returns. *)
Lemma SetBalancer_total w name eps :
  is_Some (client (w_c w)) ->
  wired w ->
  exists st w', SetBalancer name eps w = Some (st, w').
Proof.
  intros [k Hk] Hwired.
  destruct (synced (w_c w)) eqn:Hs;
    [| rewrite (SetBalancer_unsynced _ _ _ Hs); eauto].
  destruct (ParseIP (v1.ClusterIP (v1.Spec (w_svc w)))) as [clusterIP|] eqn:Hcl;
    [| rewrite (SetBalancer_noClusterIP _ _ _ Hs Hcl); eauto].
  destruct (has_address (w_svc w)) eqn:Hhas;
    [rewrite (SetBalancer_ipAlreadySet _ _ _ _ Hs Hcl Hhas); eauto |].
  destruct (allocateIP_shape w name) as (r & a & calls & Hal).
  destruct (allocateIP_frame _ _ _ _ Hal) as (Hsvc1 & Hk1 & _ & Hb1 & Hg1).
  rewrite Hk in Hk1.
  destruct r as [[pool lbIP]|err].
  - rewrite (SetBalancer_allocated _ _ _ _ _ _ _ _ Hs Hcl Hhas Hal Hk1), Hb1.
    destruct (baseURL (w_c w)) as [base|] eqn:Hb; [| eexists _, _; reflexivity].
    destruct Hwired as [g Hg]; [rewrite Hb; eauto |].
    rewrite Hg in Hg1.
    match goal with |- context [announce base ?w0] => set (w2 := w0) end.
    destruct (announcement base g (v1.Name (w_svc w2))
                (IP_String lbIP)) as [egwsvc|err] eqn:Han.
    + erewrite announce_succeeded; [eauto | exact Hg1 | reflexivity | reflexivity | exact Han].
    + edestruct (announce_failed base w2 g) as (line & ev & _ & ->);
        [exact Hg1 | reflexivity | reflexivity | exact Han | eauto].
  - rewrite (SetBalancer_allocation_failed _ _ _ _ _ _ _ Hs Hcl Hhas Hal Hk1). eauto.
Qed.
End BalancerProperties.

#[local] Instance still_unbound_preorder {IP Alloc : Type} :
  PreOrder (@still_unbound IP Alloc).
Proof.
  split; unfold still_unbound; [intros w; auto |].
  intros w1 w2 w3 H1 H2. auto.
Qed.

(** ** The driver: what every reachable state satisfies *)
Section DriverProperties.
Context {IP Alloc EGW : Type}.
Context `{!NetLib IP, !AllocatorAPI IP Alloc, !Gateway EGW}.
Implicit Types (w : @World IP Alloc) (c : @controller IP Alloc).

(** X5.  In every state that the driver reaches from a new controller, a
    controller with a base URL has a group URL: line 92 of [service.go]
    never dereferences nil. *)
Theorem reachable_wired (l : list (list Arg)) (a : Alloc) (svc0 : v1.Service)
    (history : list Call) w :
  serve_all history (mkWorld (NewController l a) svc0 []) = Some (tt, w) ->
  is_Some (baseURL (w_c w)) -> is_Some (groupURL (w_c w)).
Proof.
  intros Hrun. apply (serve_all_wired _ _ _ Hrun), NewController_wired.
Qed.

(** X6.  In every state that the driver reaches from a new controller
    with the client bound, [SetBalancer] returns for every service: no
    nil pointer, nil map or empty slice is in its way. *)
Theorem SetBalancer_never_panics (l : list (list Arg)) (a : Alloc)
    (svc0 : v1.Service) (history : list Call) w name svc eps :
  serve_all history (mkWorld (NewController l a) svc0 []) = Some (tt, w) ->
  is_Some (client (w_c w)) ->
  exists st w', SetBalancer name eps (mkWorld (w_c w) svc (w_calls w)) = Some (st, w').
Proof.
  intros Hrun Hk. apply SetBalancer_total; [exact Hk |].
  apply (serve_all_wired _ _ _ Hrun), NewController_wired.
Qed.

Lemma publish_unbound (ev : @Event IP) :
  keeps (Alloc := Alloc) (publish ev) still_unbound.
Proof.
  intros w a w'. unfold publish, bind, get_c, still_unbound.
  destruct (client (w_c w)); cbn; [intros _ [=] | discriminate].
Qed.

Ltac unbound_prim :=
  let w := fresh "w" in
  intros w ? ? [= _ <-]; unfold still_unbound; cbn; auto.

Ltac unbound_step :=
  match goal with
  | |- keeps (publish _) _ => apply publish_unbound
  | |- keeps (bind _ _) _ => apply (keeps_bind _); [| intros ?]
  | |- keeps (ret _) _ => apply (keeps_ret _)
  | |- keeps panic _ => apply keeps_panic
  | |- keeps get_c _ => apply (keeps_get_c _)
  | |- keeps get_svc _ => apply (keeps_get_svc _)
  | |- keeps (deref _) _ => apply (keeps_deref _)
  | |- keeps (modify_c _) _ => unbound_prim
  | |- keeps (modify_svc _) _ => unbound_prim
  | |- keeps (record_call _) _ => unbound_prim
  | |- keeps (let '(_, _) := ?x in _) _ => destruct x
  | |- keeps (match ?x with _ => _ end) _ => destruct x
  | |- keeps (if ?b then _ else _) _ => destruct b
  end.

Lemma SetConfig_groups_unbound groups :
  keeps (Alloc := Alloc) (SetConfig_groups groups) still_unbound.
Proof.
  induction groups as [|group rest IH]; cbn [SetConfig_groups]; [repeat unbound_step |].
  unfold logger_Log. repeat first [exact IH | unbound_step].
Qed.

Lemma serve_unbound call :
  is_SetClient call = false -> keeps (serve call) still_unbound.
Proof.
  destruct call; cbn [is_SetClient serve]; intros Hcall; try discriminate.
  - unfold SetConfig, SetConfig_body, ips_SetPools, ips_call, logger_Log.
    repeat first [apply SetConfig_groups_unbound | unbound_step].
  - unfold SetBalancer, allocateIP, announce, client_Errorf, client_Infof,
      svc_set_Annotation, logger_Log, ips_Assign, ips_AllocateFromPool,
      ips_Allocate, ips_call.
    repeat unbound_step.
  - unfold DeleteBalancer, ips_Unassign, ips_call, logger_Log. repeat unbound_step.
  - unfold MarkSynced, logger_Log. repeat unbound_step.
  - unfold Shutdown, logger_Log. repeat unbound_step.
Qed.

Lemma serve_all_unbound history :
  forallb (fun call => negb (is_SetClient call)) history = true ->
  keeps (serve_all history) still_unbound.
Proof.
  induction history as [|call rest IH]; cbn [forallb serve_all]; intros Hh.
  - apply (keeps_ret _).
  - apply andb_true_iff in Hh as [Hcall Hrest].
    apply negb_true_iff in Hcall.
    apply (keeps_bind _); [apply serve_unbound, Hcall | intros _; apply IH, Hrest].
Qed.

(** With a nil client, [SetBalancer] panics once it has called
    [allocateIP]. *)
Lemma SetBalancer_unbound w name eps clusterIP :
  client (w_c w) = None ->
  synced (w_c w) = true ->
  ParseIP (v1.ClusterIP (v1.Spec (w_svc w))) = Some clusterIP ->
  has_address (w_svc w) = false ->
  SetBalancer name eps w = None.
Proof.
  intros Hk Hs Hcl Hhas.
  destruct (SetBalancer name eps w) as [[st w']|] eqn:Hrun; [| reflexivity].
  destruct (SetBalancer_allocation_path _ _ _ _ _ _ Hs Hcl Hhas Hrun)
    as (r & w1 & Hal & _ & [k Hk1]).
  destruct (allocateIP_frame _ _ _ _ Hal) as (_ & Hk' & _). congruence.
Qed.

(** X7.  A controller on which [SetClient] was never called has a nil
    client, and once it is synced [SetBalancer] panics on every service
    that needs an address: the allocation is made, and the event about it
    goes to the nil client. *)
Theorem SetBalancer_without_client (l : list (list Arg)) (a : Alloc)
    (svc0 : v1.Service) (history : list Call) w name svc eps clusterIP :
  forallb (fun call => negb (is_SetClient call)) history = true ->
  serve_all history (mkWorld (NewController l a) svc0 []) = Some (tt, w) ->
  synced (w_c w) = true ->
  ParseIP (v1.ClusterIP (v1.Spec svc)) = Some clusterIP ->
  has_address svc = false ->
  SetBalancer name eps (mkWorld (w_c w) svc (w_calls w)) = None.
Proof.
  intros Hhist Hrun Hs Hcl Hhas.
  apply (SetBalancer_unbound _ _ _ clusterIP); try assumption.
  exact (serve_all_unbound history Hhist _ _ _ Hrun eq_refl).
Qed.

Lemma serve_synced_flag call w w' :
  serve call w = Some (tt, w') ->
  synced (w_c w') = synced (w_c w) || is_MarkSynced call.
Proof.
  destruct (is_MarkSynced call) eqn:Hcall.
  - destruct call; try discriminate Hcall. intros [= <-]. cbn.
    rewrite orb_true_r. reflexivity.
  - intros Hrun. rewrite orb_false_r. exact (serve_synced call Hcall _ _ _ Hrun).
Qed.

(** X11.  The controller is synced exactly when [MarkSynced] has been
    called: no other call sets the flag and none resets it. *)
Theorem synced_iff_MarkSynced (history : list Call) w w' :
  serve_all history w = Some (tt, w') ->
  synced (w_c w') = synced (w_c w) || existsb is_MarkSynced history.
Proof.
  revert w. induction history as [|call rest IH]; intros w; cbn [serve_all existsb].
  - intros [= <-]. rewrite orb_false_r. reflexivity.
  - unfold bind at 1. destruct (serve call w) as [[[] w1]|] eqn:Hcall; [|discriminate].
    intros Hrest. rewrite (IH _ Hrest), (serve_synced_flag _ _ _ Hcall).
    rewrite orb_assoc. reflexivity.
Qed.
End DriverProperties.

(** ** [SetBalancer] and the gateway *)
Section GatewayProperties.
Context {IP Alloc EGW : Type}.
Context `{!NetLib IP, !AllocatorAPI IP Alloc, !Gateway EGW}.
Implicit Types (w : @World IP Alloc) (c : @controller IP Alloc).

(** X10.  When a gateway is configured and answers the announcement of a
    freshly allocated address, [SetBalancer] returns success and writes,
    besides the address, the brand and the pool, the three links of the
    answer into the group, service and endpoint annotations; a link that
    the answer lacks is written as the empty string.  No warning is
    published. *)
Theorem SetBalancer_announced w name eps pool lbIP base g egwsvc :
  allocates w name pool lbIP ->
  baseURL (w_c w) = Some base ->
  groupURL (w_c w) = Some g ->
  announcement base g (v1.Name (w_svc w)) (IP_String lbIP) = Ok egwsvc ->
  exists w' k m,
    SetBalancer name eps w = Some (k8s.SyncStateSuccess, w')
    /\ w_svc w' = linked egwsvc (programmed pool lbIP (w_svc w))
    /\ v1.Annotations (w_svc w') = Some m
    /\ m !! groupAnnotation = Some (map_index (acnodal.Links egwsvc) "group")
    /\ m !! serviceAnnotation = Some (map_index (acnodal.Links egwsvc) "self")
    /\ m !! endpointAnnotation
       = Some (map_index (acnodal.Links egwsvc) "create-endpoint")
    /\ m !! brandAnnotation = Some brand
    /\ m !! poolAnnotation = Some pool
    /\ client (w_c w) = Some k
    /\ client (w_c w')
       = Some (k ++ [mkEvent Normal "IPAllocated" "Assigned IP %q" [AIP lbIP]]).
Proof.
  intros Hal Hb Hg Han.
  destruct (SetBalancer_after_allocation w name eps pool lbIP Hal)
    as (w2 & k & Hsvc2 & Hk2 & Hk & Hb2 & Hg2 & _ & ->).
  rewrite Hb. rewrite Hg in Hg2.
  assert (v1.Name (w_svc w2) = v1.Name (w_svc w)) as Hname by (rewrite Hsvc2; reflexivity).
  erewrite announce_succeeded;
    [| exact Hg2 | rewrite Hsvc2; reflexivity | rewrite Hsvc2; reflexivity
     | rewrite Hname; exact Han].
  eexists _, k, _. split; [reflexivity |]. cbn [w_svc w_c].
  rewrite Hsvc2.
  split_and!; try reflexivity; try assumption;
    unfold poolAnnotation, brandAnnotation, endpointAnnotation, serviceAnnotation,
      groupAnnotation; by simplify_map_eq.
Qed.

(** X13.  After a [SetBalancer] that allocated an address and returned
    the error outcome because the announcement failed, a further
    [SetBalancer] on the same service returns success at once: it calls
    neither the allocator nor the gateway, and the service stays without
    link annotations. *)
Theorem SetBalancer_after_failed_announcement `{!NetLibLaws IP}
    w name eps pool lbIP base g err :
  allocates w name pool lbIP ->
  baseURL (w_c w) = Some base ->
  groupURL (w_c w) = Some g ->
  announcement base g (v1.Name (w_svc w)) (IP_String lbIP) = Err err ->
  exists w1,
    SetBalancer name eps w = Some (k8s.SyncStateError, w1)
    /\ forall name' eps',
       exists w2,
         SetBalancer name' eps' w1 = Some (k8s.SyncStateSuccess, w2)
         /\ w_svc w2 = programmed pool lbIP (w_svc w)
         /\ w_calls w2 = w_calls w1
         /\ ips (w_c w2) = ips (w_c w1)
         /\ client (w_c w2) = client (w_c w1).
Proof.
  intros Hal Hb Hg Han.
  pose proof Hal as (Hs & _).
  destruct (SetBalancer_after_allocation w name eps pool lbIP Hal)
    as (w2 & k & Hsvc2 & Hk2 & Hk & Hb2 & Hg2 & _ & Hrun).
  rewrite Hb in Hrun. rewrite Hg in Hg2.
  assert (v1.Name (w_svc w2) = v1.Name (w_svc w)) as Hname by (rewrite Hsvc2; reflexivity).
  edestruct (announce_failed base w2 g) as (line & ev & _ & Hann);
    [exact Hg2 | rewrite Hsvc2; reflexivity | exact Hk2 | rewrite Hname; exact Han |].
  rewrite Hann in Hrun. clear Hann.
  eexists. split; [exact Hrun |].
  intros name' eps'.
  match goal with |- context [SetBalancer name' eps' ?w0] => set (w1 := w0) end.
  assert (synced (w_c w1) = true) as Hs1.
  { pose proof (SetBalancer_synced _ _ _ _ _ Hrun) as Hsame.
    unfold same_synced in Hsame. exact (eq_trans Hsame Hs). }
  assert (has_address (w_svc w1) = true) as Hhas1.
  { destruct (ParseIP_String lbIP) as [ip Hip].
    apply (has_address_one _ (v1.mkLoadBalancerIngress (IP_String lbIP) "") ip);
      [subst w1; cbn; rewrite Hsvc2; reflexivity | exact Hip]. }
  destruct (SetBalancer_settled w1 name' eps' Hs1 Hhas1)
    as (w3 & Hrun3 & Hsvc3 & Hcalls3 & Hips3 & Hk3).
  exists w3. split; [exact Hrun3 |].
  split_and!; try assumption.
  rewrite Hsvc3. subst w1. cbn. exact Hsvc2.
Qed.
End GatewayProperties.

(** ** The further properties at work *)
Section MoreWitnesses.
Import Scenario Cases.

Lemma SetConfig_pools_rejected_witness :
  exists w',
    SetConfig (Some bad_pool_config) ready_gateway = Some (k8s.SyncStateError, w')
    /\ baseURL (w_c w') = baseURL (w_c ready_gateway)
    /\ groupURL (w_c w') = groupURL (w_c ready_gateway)
    /\ Allocator.pools (ips (w_c w')) = Allocator.pools (ips (w_c ready_gateway)).
Proof.
  assert (fst (SetPools (ips (w_c ready_gateway)) (purelbv1.Groups bad_pool_config))
          = Some "InvalidPoolConfig default") as Herr by (vm_compute; reflexivity).
  destruct (SetConfig_pools_rejected bad_pool_config ready_gateway _ Herr)
    as (w' & Hrun & Hips & _ & Hb & Hg & _).
  exists w'. split_and!; [exact Hrun | exact Hb | exact Hg |].
  rewrite Hips. vm_compute. reflexivity.
Defined.

Lemma parses_gateway_URL : parses (IP := N) "http://egw.test:8080/api/egw/groups/1".
Proof. eexists. vm_compute. reflexivity. Defined.

Lemma parses_second_URL : parses (IP := N) second_URL.
Proof. eexists. vm_compute. reflexivity. Defined.

Lemma SetConfig_gateway_settings_witness :
  (exists w',
      SetConfig (Some two_gateways_config) (start svc)
        = Some (k8s.SyncStateReprocessAll, w')
      /\ groupURL (w_c w') = Some second_URL
      /\ baseURL (w_c w') = Some (url.mkURL "http" "egw.test:8080" ""))
  /\ (exists w',
        SetConfig (Some (pool_config "1.2.3.0/24")) ready_gateway
          = Some (k8s.SyncStateReprocessAll, w')
        /\ groupURL (w_c w') = None
        /\ baseURL (w_c w') = None).
Proof.
  split.
  - assert (fst (SetPools (ips (w_c (start svc))) (purelbv1.Groups two_gateways_config))
            = None) as Hok by (vm_compute; reflexivity).
    assert (Forall (parses (IP := N)) (gateway_URLs (purelbv1.Groups two_gateways_config)))
      as Hall.
    { repeat constructor; [exact parses_gateway_URL | exact parses_second_URL]. }
    destruct (SetConfig_gateway_settings two_gateways_config (start svc) Hok Hall)
      as (w' & Hrun & Hg & Hb & _).
    exists w'. split_and!; [exact Hrun | exact Hg | exact Hb].
  - assert (fst (SetPools (ips (w_c ready_gateway))
                   (purelbv1.Groups (pool_config "1.2.3.0/24"))) = None)
      as Hok by (vm_compute; reflexivity).
    assert (Forall (parses (IP := N))
              (gateway_URLs (purelbv1.Groups (pool_config "1.2.3.0/24")))) as Hall
      by constructor.
    destruct (SetConfig_gateway_settings (pool_config "1.2.3.0/24") ready_gateway Hok Hall)
      as (w' & Hrun & Hg & Hb & _).
    exists w'. split_and!; [exact Hrun | exact Hg | exact Hb].
Defined.

Lemma SetConfig_gateway_URL_rejected_witness :
  exists w',
    SetConfig (Some bad_gateway_config) (start svc) = Some (k8s.SyncStateError, w')
    /\ map Allocator.p_name (Allocator.pools (ips (w_c w'))) = ["default"; "other"]
    /\ groupURL (w_c w') = Some "://egw.test:8080/api/egw/groups/2"
    /\ baseURL (w_c w') = Some (url.mkURL "http" "egw.test:8080" "").
Proof.
  assert (fst (SetPools (ips (w_c (start svc))) (purelbv1.Groups bad_gateway_config))
          = None) as Hok by (vm_compute; reflexivity).
  assert (Forall (parses (IP := N)) ["http://egw.test:8080/api/egw/groups/1"]) as Hpre.
  { repeat constructor. exact parses_gateway_URL. }
  destruct (SetConfig_gateway_URL_rejected bad_gateway_config (start svc)
              ["http://egw.test:8080/api/egw/groups/1"]
              "://egw.test:8080/api/egw/groups/2" []
              "missing protocol scheme" Hok eq_refl Hpre eq_refl)
    as (w' & Hrun & Hips & _ & Hg & Hb).
  exists w'. split_and!; [exact Hrun | | exact Hg | exact Hb].
  rewrite Hips. vm_compute. reflexivity.
Defined.

Lemma boot_history_runs :
  @serve_all N Allocator.t unit _ _ no_gateway boot_history
    (mkWorld (NewController [] Allocator.New) svc []) = Some (tt, ready_gateway).
Proof. vm_compute. reflexivity. Defined.

Lemma reachable_wired_witness :
  is_Some (baseURL (w_c ready_gateway)) /\ is_Some (groupURL (w_c ready_gateway)).
Proof.
  assert (is_Some (baseURL (w_c ready_gateway))) as Hb
    by (eexists; vm_compute; reflexivity).
  split; [exact Hb |].
  exact (reachable_wired (Gateway0 := no_gateway) [] Allocator.New svc boot_history
           ready_gateway boot_history_runs Hb).
Defined.

Lemma SetBalancer_never_panics_witness :
  exists st w',
    @SetBalancer N Allocator.t unit _ _ no_gateway "test" None
      (mkWorld (w_c ready_gateway) svc_pool (w_calls ready_gateway)) = Some (st, w').
Proof.
  assert (is_Some (client (w_c ready_gateway))) as Hk
    by (eexists; vm_compute; reflexivity).
  exact (SetBalancer_never_panics (Gateway0 := no_gateway) [] Allocator.New svc
           boot_history ready_gateway "test" svc_pool None boot_history_runs Hk).
Defined.

Lemma SetBalancer_without_client_witness :
  @serve_all N Allocator.t unit _ _ no_gateway clientless_history
    (mkWorld (NewController [] Allocator.New) svc []) = Some (tt, clientless)
  /\ @SetBalancer N Allocator.t unit _ _ no_gateway "test" None
       (mkWorld (w_c clientless) svc (w_calls clientless)) = None.
Proof.
  assert (@serve_all N Allocator.t unit _ _ no_gateway clientless_history
            (mkWorld (NewController [] Allocator.New) svc []) = Some (tt, clientless))
    as Hrun by (vm_compute; reflexivity).
  assert (synced (w_c clientless) = true) as Hs by (vm_compute; reflexivity).
  assert (ParseIP (v1.ClusterIP (v1.Spec svc)) = Some 16909060%N) as Hcl
    by (vm_compute; reflexivity).
  assert (has_address (IP := N) svc = false) as Hhas by (vm_compute; reflexivity).
  split; [exact Hrun |].
  exact (SetBalancer_without_client (Gateway0 := no_gateway) [] Allocator.New svc
           clientless_history clientless "test" svc None _ eq_refl Hrun Hs Hcl Hhas).
Defined.

Lemma synced_iff_MarkSynced_witness :
  synced (w_c unsynced) = false /\ synced (w_c ready_gateway) = true.
Proof.
  assert (@serve_all N Allocator.t unit _ _ no_gateway unsynced_history
            (mkWorld (NewController [] Allocator.New) svc []) = Some (tt, unsynced))
    as Hrun by (vm_compute; reflexivity).
  split.
  - exact (synced_iff_MarkSynced (Gateway0 := no_gateway) unsynced_history _ _ Hrun).
  - exact (synced_iff_MarkSynced (Gateway0 := no_gateway) boot_history _ _
             boot_history_runs).
Defined.

(** The reconciliation of the annotated service. *)
Lemma annotated_allocated :
  exists w',
    @SetBalancer N Allocator.t unit _ _ no_gateway "web" None
      (booted (pool_config "1.2.3.0/24") svc_annotated)
      = Some (k8s.SyncStateSuccess, w').
Proof. eexists. vm_compute. reflexivity. Defined.

Lemma SetBalancer_footprint_witness :
  exists w',
    @SetBalancer N Allocator.t unit _ _ no_gateway "web" None
      (booted (pool_config "1.2.3.0/24") svc_annotated)
      = Some (k8s.SyncStateSuccess, w')
    /\ v1.Name (w_svc w') = "web"
    /\ v1.Spec (w_svc w') = v1.Spec svc_annotated
    /\ default ∅ (v1.Annotations (w_svc w')) !! "example.com/owner" = Some "ops"
    /\ Ports (w_svc w') = [mkPort "TCP" 80]
    /\ SharingKey (w_svc w') = "team-a"
    /\ synced (w_c w') = true.
Proof.
  destruct annotated_allocated as (w' & Hrun).
  destruct (SetBalancer_footprint (Gateway0 := no_gateway) _ _ _ _ _ Hrun)
    as (Hname & Hspec & Hann & Hports & Hkey & _ & Hs & _).
  exists w'. split_and!; [exact Hrun | exact Hname | exact Hspec | | exact Hports
                         | exact Hkey | exact Hs].
  rewrite Hann; [reflexivity |].
  unfold written_annotations. intros H. rewrite !elem_of_cons, elem_of_nil in H.
  destruct H as [H|[H|[H|[H|[H|[]]]]]]; discriminate H.
Defined.

Lemma SetBalancer_allocator_calls_witness :
  exists w',
    @SetBalancer N Allocator.t unit _ _ no_gateway "web" None
      (booted (pool_config "1.2.3.0/24") svc_annotated)
      = Some (k8s.SyncStateSuccess, w')
    /\ ((w_calls w' = w_calls (booted (pool_config "1.2.3.0/24") svc_annotated)
         /\ ips (w_c w') = ips (w_c (booted (pool_config "1.2.3.0/24") svc_annotated)))
        \/ exists call,
             allocation_for "web" call
             /\ w_calls w'
                = w_calls (booted (pool_config "1.2.3.0/24") svc_annotated) ++ [call]
             /\ ips (w_c w')
                = performed (ips (w_c (booted (pool_config "1.2.3.0/24") svc_annotated)))
                            call).
Proof.
  destruct annotated_allocated as (w' & Hrun).
  exists w'. split; [exact Hrun |].
  exact (SetBalancer_allocator_calls (Gateway0 := no_gateway) _ _ _ _ _ Hrun).
Defined.

Lemma ready_gateway_answered :
  @announcement N unit _ gateway_up (url.mkURL "http" "egw.test:8080" "")
    "http://egw.test:8080/api/egw/groups/1" (v1.Name (w_svc ready_gateway))
    (IP_String addr_1_2_3_0)
  = Ok service_answer.
Proof. reflexivity. Defined.

Lemma SetBalancer_announced_witness :
  exists w' m,
    @SetBalancer N Allocator.t unit _ _ gateway_up "test" None ready_gateway
      = Some (k8s.SyncStateSuccess, w')
    /\ v1.Annotations (w_svc w') = Some m
    /\ m !! groupAnnotation = Some "/api/egw/groups/1"
    /\ m !! serviceAnnotation = Some "/api/egw/services/7"
    /\ m !! endpointAnnotation = Some "/api/egw/services/7/endpoints".
Proof.
  destruct (SetBalancer_announced (Gateway0 := gateway_up)
              ready_gateway "test" None "default" addr_1_2_3_0 _ _ _
              ready_gateway_allocates (proj1 ready_gateway_wired)
              (proj2 ready_gateway_wired) ready_gateway_answered)
    as (w' & k & m & Hrun & _ & Hm & Hgroup & Hself & Hend & _).
  exists w', m. split_and!; [exact Hrun | exact Hm | exact Hgroup | exact Hself | exact Hend].
Defined.

(** The reconciliation of a second service when the pool is exhausted. *)
Lemma exhausted_refused :
  exists w',
    @SetBalancer N Allocator.t unit _ _ no_gateway "test2" None exhausted
      = Some (k8s.SyncStateSuccess, w')
    /\ v1.Ingress (v1.LoadBalancer (v1.Status (w_svc w'))) = [].
Proof. eexists. split; [vm_compute; reflexivity | reflexivity]. Defined.

Lemma SetBalancer_outcome_witness :
  exists w',
    @SetBalancer N Allocator.t unit _ _ no_gateway "test2" None exhausted
      = Some (k8s.SyncStateSuccess, w')
    /\ v1.Ingress (v1.LoadBalancer (v1.Status (w_svc w'))) = []
    /\ match synced (w_c exhausted), baseURL (w_c exhausted) with
       | false, _ => k8s.SyncStateSuccess = k8s.SyncStateError
       | true, None => k8s.SyncStateSuccess = k8s.SyncStateSuccess
       | true, Some _ => success_or_error k8s.SyncStateSuccess
       end.
Proof.
  destruct exhausted_refused as (w' & Hrun & Hing).
  exists w'. split_and!; [exact Hrun | exact Hing |].
  exact (SetBalancer_outcome (Gateway0 := no_gateway) _ _ _ _ _ Hrun).
Defined.

Lemma SetBalancer_after_failed_announcement_witness :
  exists w1,
    @SetBalancer N Allocator.t unit _ _ gateway_down "test" None ready_gateway
      = Some (k8s.SyncStateError, w1)
    /\ forall name' eps',
       exists w2,
         @SetBalancer N Allocator.t unit _ _ gateway_down name' eps' w1
           = Some (k8s.SyncStateSuccess, w2)
         /\ w_svc w2 = programmed "default" addr_1_2_3_0 (w_svc ready_gateway)
         /\ w_calls w2 = w_calls w1
         /\ ips (w_c w2) = ips (w_c w1)
         /\ client (w_c w2) = client (w_c w1).
Proof.
  exact (SetBalancer_after_failed_announcement (Gateway0 := gateway_down)
           ready_gateway "test" None "default" addr_1_2_3_0 _ _ _
           ready_gateway_allocates (proj1 ready_gateway_wired)
           (proj2 ready_gateway_wired) ready_gateway_refused).
Defined.
End MoreWitnesses.
